(** * Host-configuration orchestrator of [ubuntu_config_service.py]

    A shallow embedding of the network / time configuration service:
    the command executor [run_command], the environment detector
    [_get_ubuntu_version], the Netplan builder, the legacy configurators,
    the DHCP teardown and the three request handlers, followed by the
    properties the design document states about them.

    Modelling conventions.
    - Python [str] is [string] (a sequence of bytes, ASCII where a library
      function looks at characters).  A request body is a [gmap] from keys to
      text values; a field read with [data.get] is an [option string], [None]
      standing for an absent key, and its truthiness is [Py.truthy].
    - The host is a record [World]: the mock flag, the files the service
      touches, the paths that cannot be opened for writing, the adapters
      under /sys/class/net, the outcome the host gives to each command
      handed to [subprocess.run], the commands handed over so far, the
      record of [run_command] calls with what each returned, and the log.  Every function of the service that
      has effects is a computation in the state-and-exception monad [M].
    - Of the external commands only [cp] changes the files of the model;
      every other command has the outcome the host gives it, which may
      depend on the processes run before.
    - A log record keeps the level and the message template as the source
      writes it; interpolated values are not rendered. *)

From Stdlib Require Import ZArith Lia Ascii String List.
From stdpp Require Import base option list gmap strings pretty.

Open Scope Z_scope.

(** ** Python string primitives *)

Module Py.

Definition dq : string := String "034"%char EmptyString.
Definition nl : string := String "010"%char EmptyString.

(** [sep.join(l)] *)
Fixpoint join (sep : string) (l : list string) : string :=
  match l with
  | [] => ""
  | [x] => x
  | x :: l' => x +:+ sep +:+ join sep l'
  end.

(** [s.startswith(p)] *)
Fixpoint startswith (p s : string) : bool :=
  match p, s with
  | EmptyString, _ => true
  | String a p', String b s' => if decide (a = b) then startswith p' s' else false
  | String _ _, EmptyString => false
  end.

(** [sub in s] *)
Fixpoint contains (sub s : string) : bool :=
  startswith sub s ||
  match s with
  | EmptyString => false
  | String _ s' => contains sub s'
  end.

(** [str.isspace] on the ASCII range: TAB, LF, VT, FF, CR, FS, GS, RS, US
    and the space. *)
Definition isspace (c : ascii) : bool :=
  let n := Z.of_nat (nat_of_ascii c) in
  ((9 <=? n) && (n <=? 13)) || ((28 <=? n) && (n <=? 32)).

Fixpoint lstrip (s : string) : string :=
  match s with
  | EmptyString => EmptyString
  | String c s' => if isspace c then lstrip s' else s
  end.

Fixpoint rstrip (s : string) : string :=
  match s with
  | EmptyString => EmptyString
  | String c s' =>
      match rstrip s' with
      | EmptyString => if isspace c then EmptyString else String c EmptyString
      | r => String c r
      end
  end.

(** [s.strip()] *)
Definition strip (s : string) : string := rstrip (lstrip s).

Definition lower_char (c : ascii) : ascii :=
  let n := nat_of_ascii c in
  if (65 <=? Z.of_nat n) && (Z.of_nat n <=? 90) then ascii_of_nat (n + 32) else c.

(** [s.lower()] on the ASCII range *)
Fixpoint lower (s : string) : string :=
  match s with
  | EmptyString => EmptyString
  | String c s' => String (lower_char c) (lower s')
  end.

(** [s.split(c)] for a one-character separator *)
Fixpoint split (sep : ascii) (s : string) : list string :=
  match s with
  | EmptyString => [EmptyString]
  | String c s' =>
      if decide (c = sep) then EmptyString :: split sep s'
      else match split sep s' with
           | [] => [String c EmptyString]
           | x :: xs => String c x :: xs
           end
  end.

(** [s.isascii()] *)
Definition isascii (s : string) : bool :=
  forallb (fun c => Z.of_nat (nat_of_ascii c) <? 128) (list_ascii_of_string s).

(** [c.isascii() and c.isdigit()] for one character *)
Definition isdigit (c : ascii) : bool :=
  let n := Z.of_nat (nat_of_ascii c) in (48 <=? n) && (n <=? 57).

Definition digit_val (c : ascii) : Z := Z.of_nat (nat_of_ascii c) - 48.

(** [s.isascii() and s.isdigit()]: non-empty and every character a digit *)
Definition all_digits (s : string) : bool :=
  match s with
  | EmptyString => false
  | _ => forallb isdigit (list_ascii_of_string s)
  end.

(** [int(s, 10)] on a string of digits *)
Definition int_of_digits (s : string) : Z :=
  fold_left (fun acc c => 10 * acc + digit_val c) (list_ascii_of_string s) 0.

(** Truthiness of an optional text field: [None] and [""] are falsy. *)
Definition truthy (o : option string) : bool :=
  match o with
  | Some s => negb (String.eqb s "")
  | None => false
  end.

(** [str(x)] of an optional text field *)
Definition str (o : option string) : string :=
  match o with
  | Some s => s
  | None => "None"
  end.

(** [x == lit] for an optional text field *)
Definition eqs (o : option string) (lit : string) : bool :=
  match o with
  | Some s => String.eqb s lit
  | None => false
  end.

End Py.


(** ** The library functions the service calls

    [ipaddress.IPv4Network(..., strict=False).prefixlen] and
    [datetime.strptime(..., "%Y-%m-%d %H:%M")] are CPython library code
    (3.9.5 and later); they are transcribed here for ASCII text, an
    exception being [None]. *)

Module Ipaddress.

Definition _ALL_ONES : Z := 2 ^ 32 - 1.
Definition _max_prefixlen : Z := 32.

Definition bit_length (n : Z) : Z := if n =? 0 then 0 else Z.log2 (Z.abs n) + 1.

Definition _count_righthand_zero_bits (number bits : Z) : Z :=
  if number =? 0 then bits
  else Z.min bits (bit_length (Z.land (Z.lnot number) (number - 1))).

Definition _parse_octet (octet_str : string) : option Z :=
  if negb (Py.all_digits octet_str) then None
  else if (3 <? String.length octet_str)%nat then None
  else if negb (String.eqb octet_str "0") && Py.startswith "0" octet_str then None
  else
    let octet_int := Py.int_of_digits octet_str in
    if 255 <? octet_int then None else Some octet_int.

Definition _ip_int_from_string (ip_str : string) : option Z :=
  if String.eqb ip_str "" then None
  else
    match Py.split "."%char ip_str with
    | [a; b; c; d] =>
        a ← _parse_octet a; b ← _parse_octet b;
        c ← _parse_octet c; d ← _parse_octet d;
        Some (Z.lor (Z.shiftl a 24) (Z.lor (Z.shiftl b 16) (Z.lor (Z.shiftl c 8) d)))
    | _ => None
    end.

Definition _prefix_from_ip_int (ip_int : Z) : option Z :=
  let trailing_zeroes := _count_righthand_zero_bits ip_int _max_prefixlen in
  let prefixlen := _max_prefixlen - trailing_zeroes in
  let leading_ones := Z.shiftr ip_int trailing_zeroes in
  let all_ones := Z.shiftl 1 prefixlen - 1 in
  if leading_ones =? all_ones then Some prefixlen else None.

Definition _prefix_from_prefix_string (prefixlen_str : string) : option Z :=
  if negb (Py.all_digits prefixlen_str) then None
  else
    let prefixlen := Py.int_of_digits prefixlen_str in
    if (0 <=? prefixlen) && (prefixlen <=? _max_prefixlen) then Some prefixlen
    else None.

(** a netmask first, then the inverted bits as a hostmask *)
Definition _prefix_from_ip_string (ip_str : string) : option Z :=
  ip_int ← _ip_int_from_string ip_str;
  match _prefix_from_ip_int ip_int with
  | Some p => Some p
  | None => _prefix_from_ip_int (Z.lxor ip_int _ALL_ONES)
  end.

Definition _make_netmask (arg : string) : option Z :=
  match _prefix_from_prefix_string arg with
  | Some p => Some p
  | None => _prefix_from_ip_string arg
  end.

Inductive error := AddressValueError | NetmaskValueError.

Definition or_raise {A} (e : error) (o : option A) : error + A :=
  match o with
  | Some a => inr a
  | None => inl e
  end.

(** [IPv4Network(address, strict=False).prefixlen] *)
Definition IPv4Network_prefixlen (address : string) : error + Z :=
  match Py.split "/"%char address with
  | [addr] =>
      match _ip_int_from_string addr with
      | None => inl AddressValueError
      | Some _ => inr _max_prefixlen
      end
  | [addr; mask] =>
      match _ip_int_from_string addr with
      | None => inl AddressValueError
      | Some _ => or_raise NetmaskValueError (_make_netmask mask)
      end
  | _ => inl AddressValueError
  end.

End Ipaddress.

Module Strptime.

(** A directive is a backtracking matcher: the candidates it can consume,
    in the order the regular expression tries its alternatives. *)
Definition matcher (A : Type) : Type := string -> list (A * string).

Definition digit_in (lo hi : Z) (c : ascii) : bool :=
  Py.isdigit c && (lo <=? Py.digit_val c) && (Py.digit_val c <=? hi).

(** one character in the class [lo-hi] *)
Definition d1 (lo hi : Z) : matcher Z := fun s =>
  match s with
  | String c r => if digit_in lo hi c then [(Py.digit_val c, r)] else []
  | EmptyString => []
  end.

(** two characters, the first in [lo1-hi1], the second in [lo2-hi2] *)
Definition d2 (lo1 hi1 lo2 hi2 : Z) : matcher Z := fun s =>
  match s with
  | String a (String b r) =>
      if digit_in lo1 hi1 a && digit_in lo2 hi2 b
      then [(10 * Py.digit_val a + Py.digit_val b, r)] else []
  | _ => []
  end.

Definition alt {A} (p q : matcher A) : matcher A := fun s => p s ++ q s.

Definition lit (c : ascii) : matcher unit := fun s =>
  match s with
  | String a r => if decide (a = c) then [(tt, r)] else []
  | EmptyString => []
  end.

(** [\s+], greedy: the longest run first *)
Fixpoint spaces (s : string) : list (unit * string) :=
  match s with
  | String c r => if Py.isspace c then spaces r ++ [(tt, r)] else []
  | EmptyString => []
  end.

(** [%Y]: \d\d\d\d *)
Definition dir_Y : matcher Z := fun s =>
  match s with
  | String a (String b (String c (String d r))) =>
      if Py.isdigit a && Py.isdigit b && Py.isdigit c && Py.isdigit d
      then [(1000 * Py.digit_val a + 100 * Py.digit_val b
             + 10 * Py.digit_val c + Py.digit_val d, r)]
      else []
  | _ => []
  end.

(** [%m]: 1[0-2]|0[1-9]|[1-9] *)
Definition dir_m : matcher Z := alt (d2 1 1 0 2) (alt (d2 0 0 1 9) (d1 1 9)).

(** [%d]: 3[01]|[12]\d|0[1-9]|[1-9]| [1-9] *)
Definition dir_d : matcher Z :=
  alt (d2 3 3 0 1) (alt (d2 1 2 0 9) (alt (d2 0 0 1 9) (alt (d1 1 9)
    (fun s => '(_, r) ← lit " "%char s; d1 1 9 r)))).

(** [%H]: 2[0-3]|[0-1]\d|\d *)
Definition dir_H : matcher Z := alt (d2 2 2 0 3) (alt (d2 0 1 0 9) (d1 0 9)).

(** [%M]: [0-5]\d|\d *)
Definition dir_M : matcher Z := alt (d2 0 5 0 9) (d1 0 9).

(** the compiled format "%Y-%m-%d %H:%M" *)
Definition format_regex : matcher (Z * Z * Z * Z * Z) := fun s =>
  '(year, s) ← dir_Y s; '(_, s) ← lit "-"%char s;
  '(month, s) ← dir_m s; '(_, s) ← lit "-"%char s;
  '(day, s) ← dir_d s; '(_, s) ← spaces s;
  '(hour, s) ← dir_H s; '(_, s) ← lit ":"%char s;
  '(minute, s) ← dir_M s;
  [((year, month, day, hour, minute), s)].

Definition is_leap (year : Z) : bool :=
  ((year mod 4 =? 0) && negb (year mod 100 =? 0)) || (year mod 400 =? 0).

Definition days_in_month (year month : Z) : Z :=
  if month =? 2 then (if is_leap year then 29 else 28)
  else if (month =? 4) || (month =? 6) || (month =? 9) || (month =? 11) then 30
  else 31.

(** [datetime.strptime(data_string, "%Y-%m-%d %H:%M")]; [None] is
    ValueError: no match, unconverted data, or no such calendar day. *)
Definition strptime (data_string : string) : option (Z * Z * Z * Z * Z) :=
  match format_regex data_string with
  | ((year, month, day, hour, minute), rest) :: _ =>
      if negb (String.eqb rest "") then None
      else if year <? 1 then None
      else if days_in_month year month <? day then None
      else Some (year, month, day, hour, minute)
  | [] => None
  end.

End Strptime.


(** ** The Netplan document

    The nested dict [{'network': {'version', 'renderer', 'ethernets':
    {interface: {...}}}}]; a key that the builder does not set is [None]. *)

Record route := { to_ : string; via : string }.

Record nameservers_cfg := { ns_addresses : list string }.

Record ethernet := {
  dhcp4 : option bool;
  addresses : option (list string);
  routes : option (list route);
  nameservers : option nameservers_cfg
}.

Record network_cfg := {
  version : Z;
  renderer : string;
  ethernets : gmap string ethernet
}.

Record netplan_config := { network : network_cfg }.

(** ** The host *)

Inductive level := INFO | WARNING | ERROR | CRITICAL.

(** What [subprocess.run(..., capture_output=True, text=True, check=True)]
    does: it completes with exit status 0, or raises. *)
Inductive proc_result :=
| Completed (stdout : string)
| CalledProcessError (returncode : Z) (stdout stderr : string)
| FileNotFoundError
| OtherException (text : string).

(** A file holds text, or the YAML dump of a document ([yaml.dump] is kept
    symbolic). *)
Inductive content :=
| Text (s : string)
| YamlDump (d : netplan_config).

Record World := {
  IN_DOCKER_TEST_MODE : bool;
  (** the files, by path *)
  files : gmap string content;
  (** [write_fault p = Some msg]: creating or opening [p] for writing
      raises OSError [msg], and [p] is left as it was *)
  write_fault : string -> option string;
  (** the entries of /sys/class/net as (name, is_dir), in scan order;
      [None] when [os.scandir] raises *)
  sys_class_net : option (list (string * bool));
  (** the outcome of [subprocess.run] on a command, given the commands
      handed to it before *)
  host : list (list string) -> list string -> proc_result;
  (** the commands handed to [subprocess.run] so far, oldest first; a
      command is recorded whatever the outcome, also when its executable is
      missing and no process starts *)
  procs : list (list string);
  (** every call of [run_command] so far with what it returned, oldest
      first: the record a spy executor would keep *)
  calls : list (list string * (bool * string));
  logs : list (level * string)
}.

Definition set_files (f : gmap string content) (w : World) : World :=
  {| IN_DOCKER_TEST_MODE := IN_DOCKER_TEST_MODE w; files := f;
     write_fault := write_fault w; sys_class_net := sys_class_net w;
     host := host w; procs := procs w; calls := calls w; logs := logs w |}.

Definition add_proc (c : list string) (w : World) : World :=
  {| IN_DOCKER_TEST_MODE := IN_DOCKER_TEST_MODE w; files := files w;
     write_fault := write_fault w; sys_class_net := sys_class_net w;
     host := host w; procs := procs w ++ [c]; calls := calls w; logs := logs w |}.

Definition add_log (l : level) (msg : string) (w : World) : World :=
  {| IN_DOCKER_TEST_MODE := IN_DOCKER_TEST_MODE w; files := files w;
     write_fault := write_fault w; sys_class_net := sys_class_net w;
     host := host w; procs := procs w; calls := calls w;
     logs := logs w ++ [(l, msg)] |}.

Definition add_call (c : list string) (r : bool * string) (w : World) : World :=
  {| IN_DOCKER_TEST_MODE := IN_DOCKER_TEST_MODE w; files := files w;
     write_fault := write_fault w; sys_class_net := sys_class_net w;
     host := host w; procs := procs w; calls := calls w ++ [(c, r)];
     logs := logs w |}.

(** ** The monad of the service: state passing with Python exceptions *)

Inductive exn :=
| ValueError (msg : string)
| OSError (msg : string)
| Exception (msg : string).

(** [str(e)] *)
Definition exn_str (e : exn) : string :=
  match e with
  | ValueError m | OSError m | Exception m => m
  end.

Inductive res (A : Type) :=
| Ok (a : A)
| Raise (e : exn).
Arguments Ok {A} a.
Arguments Raise {A} e.

Definition M (A : Type) : Type := World -> res A * World.

#[global] Instance M_ret : MRet M := fun A a w => (Ok a, w).

#[global] Instance M_bind : MBind M := fun A B f m w =>
  match m w with
  | (Ok a, w') => f a w'
  | (Raise e, w') => (Raise e, w')
  end.

Definition raise {A} (e : exn) : M A := fun w => (Raise e, w).

(** [try: body  except Exception as e: handler(e)] *)
Definition try_except {A} (body : M A) (handler : exn -> M A) : M A := fun w =>
  match body w with
  | (Ok a, w') => (Ok a, w')
  | (Raise e, w') => handler e w'
  end.

Definition gets {A} (f : World -> A) : M A := fun w => (Ok (f w), w).
Definition modify (f : World -> World) : M unit := fun w => (Ok tt, f w).

Definition logger (l : level) (msg : string) : M unit := modify (add_log l msg).

Definition when (b : bool) (m : M unit) : M unit := if b then m else mret tt.

(** [with open(path, 'w') as f: f.write(c)].  The faults of the model are
    those of [open] (permission denied, read-only file system, missing
    directory), which leave the file untouched; a write that breaks off
    after the open, leaving a truncated file, is not among them. *)
Definition write_file (path : string) (c : content) : M unit := fun w =>
  match write_fault w path with
  | Some msg => (Raise (OSError msg), w)
  | None => (Ok tt, set_files (<[path := c]> (files w)) w)
  end.

(** ** Command Executor *)

Definition mocked_commands : list string :=
  ["timedatectl"; "netplan"; "dhclient"; "systemctl"; "pkill"].

(** [x in l] for a list of strings *)
Definition list_contains (x : string) (l : list string) : bool :=
  existsb (String.eqb x) l.

(** [cp src dst] on the files of the model *)
Definition cp (src dst : string) (w : World) : proc_result * World :=
  match files w !! src, write_fault w dst with
  | None, _ =>
      (CalledProcessError 1 ""
         ("cp: cannot stat '" +:+ src +:+ "': No such file or directory"), w)
  | Some _, Some msg =>
      (CalledProcessError 1 ""
         ("cp: cannot create regular file '" +:+ dst +:+ "': " +:+ msg), w)
  | Some c, None => (Completed "", set_files (<[dst := c]> (files w)) w)
  end.

(** [subprocess.run(command_list, ...)].  The hand-over is recorded in
    [procs] first; the outcome may still be FileNotFoundError, in which case
    no process has started.  The model of the host knows one command that
    changes the files of the service, [cp src dst]; every other process
    leaves them alone and its outcome is the host's.  An empty argument
    list raises IndexError before anything is handed over. *)
Definition subprocess_run (command_list : list string) : World -> proc_result * World :=
  fun w =>
    match command_list with
    | [] => (OtherException "list index out of range", w)
    | [name; src; dst] =>
        if String.eqb name "cp" then cp src dst (add_proc command_list w)
        else (host w (procs w) command_list, add_proc command_list w)
    | _ => (host w (procs w) command_list, add_proc command_list w)
    end.

(** the command once a leading 'sudo' is removed *)
Definition strip_sudo (command_list : list string) : list string :=
  match command_list with
  | first :: rest => if String.eqb first "sudo" then rest else command_list
  | [] => command_list
  end.

(** The body of [run_command]: every exception of the source is caught
    inside, so it always returns a pair. *)
Definition run_command_body (command_list : list string) : M (bool * string) :=
  logger INFO "Executing command: {' '.join(command_list)}";;
  command_list ←
    match command_list with
    | first :: rest =>
        if String.eqb first "sudo" then
          logger INFO "Removed 'sudo' from command. New command: {' '.join(command_list)}";;
          mret rest
        else mret command_list
    | [] => mret command_list
    end;
  mock ← gets IN_DOCKER_TEST_MODE;
  let command_name := default "" (head command_list) in
  if mock && negb (bool_decide (command_list = []))
     && list_contains command_name mocked_commands
  then
    let mock_output :=
      "Mocked: " +:+ Py.join " " command_list
      +:+ " - This command would normally run on a full Ubuntu OS." in
    logger INFO "Mocked: {' '.join(command_list)} - This command would normally run on a full Ubuntu OS.";;
    if String.eqb command_name "dhclient" && list_contains "-r" command_list
    then mret (true, "Mocked: DHCP release successful.")
    else mret (true, mock_output)
  else
    result ← (fun w => let '(r, w') := subprocess_run command_list w in (Ok r, w'));
    match result with
    | Completed stdout =>
        let output := Py.strip stdout in
        when (negb (String.eqb output "")) (logger INFO "Command output: {output}");;
        mret (true, output)
    | CalledProcessError returncode stdout stderr =>
        let error_output :=
          Py.strip (if negb (String.eqb stderr "") then stderr else stdout) in
        logger ERROR "Command failed with exit code {e.returncode}: {error_output}";;
        logger ERROR "Full command attempted: {' '.join(command_list)}";;
        if Py.contains "command not found" (Py.lower error_output)
           || Py.contains "No such file or directory" error_output
        then mret (false, "Command '" +:+ command_name
                          +:+ "' not found. Ensure it is installed and in PATH.")
        else if Py.contains "systemd as init system (PID 1)" error_output
                || Py.contains "Failed to connect to bus" error_output
        then mret (false, "Cannot execute '" +:+ command_name
                          +:+ "': This command requires systemd as init system (PID 1) and D-Bus, which are typically not available in a standard Docker container. This service is intended for a full Ubuntu OS.")
        else mret (false, "Command execution failed: " +:+ error_output)
    | FileNotFoundError =>
        mret (false, "Command '" +:+ command_name
                     +:+ "' not found. Is it installed and in PATH?")
    | OtherException e =>
        logger ERROR "An unexpected error occurred while executing command: {e}";;
        mret (false, "An unexpected error occurred: " +:+ e)
    end.

(** [run_command]: the body, and the entry of the call in [calls]. *)
Definition run_command (command_list : list string) : M (bool * string) :=
  outcome ← run_command_body command_list;
  modify (add_call command_list outcome);;
  mret outcome.

(** ** Constants *)

Definition NETPLAN_CONFIG_DIR : string := "/etc/netplan/".
Definition NETPLAN_CONFIG_FILE : string := "/etc/netplan/01-vcns-network.yaml".
Definition DEFAULT_NTP_SERVER : string := "pool.ntp.org".
Definition OS_RELEASE : string := "/etc/os-release".
Definition interfaces_file : string := "/etc/network/interfaces".
Definition interfaces_backup : string := "/etc/network/interfaces.backup".
Definition NTP_CONF : string := "/etc/ntp.conf".

(** the text of a file written line by line *)
Definition lines (l : list string) : string :=
  fold_right (fun x acc => x +:+ Py.nl +:+ acc) "" l.

(** [x or d] on an optional text field *)
Definition or_default (x : option string) (d : string) : string :=
  match x with
  | Some s => if String.eqb s "" then d else s
  | None => d
  end.

(** ** CIDR conversion *)

Definition subnet_mask_to_cidr (subnet_mask : string) : M (option Z) :=
  match Ipaddress.IPv4Network_prefixlen ("0.0.0.0/" +:+ subnet_mask) with
  | inr prefixlen => mret (Some prefixlen)
  | inl Ipaddress.AddressValueError =>
      logger ERROR "Invalid subnet mask format: {subnet_mask}";;
      mret None
  | inl Ipaddress.NetmaskValueError =>
      logger ERROR "Error converting subnet mask to CIDR: {e}";;
      mret None
  end.

(** ** Environment Detector *)

Definition _get_ubuntu_version : M string := fun w =>
  match files w !! OS_RELEASE with
  | Some (Text content) =>
      if Py.contains ("VERSION_ID=" +:+ Py.dq +:+ "16.04" +:+ Py.dq) content
      then (Ok "16.04", w)
      else if Py.contains ("VERSION_ID=" +:+ Py.dq +:+ "18.04" +:+ Py.dq) content
      then (Ok "18.04", w)
      else (Ok "modern", w)
  | _ => (Ok "modern", w)
  end.

(** ** Interface discovery *)

Definition is_wired (iface : string) : bool :=
  Py.startswith "eth" iface || Py.startswith "enp" iface.

(** [[f.name for f in os.scandir('/sys/class/net') if f.is_dir()]] *)
Definition scanned_interfaces (entries : list (string * bool)) : list string :=
  map fst (filter (fun e => snd e = true) entries).

Definition _get_network_interface_name : M (option string) :=
  entries ← gets sys_class_net;
  match entries with
  | None =>
      logger ERROR "Error detecting network interface: {e}";;
      logger ERROR "Could not detect any network interface. Please specify manually.";;
      mret None
  | Some entries =>
      let interfaces := scanned_interfaces entries in
      match List.find is_wired interfaces with
      | Some iface =>
          logger INFO "Detected primary network interface: {iface}";;
          mret (Some iface)
      | None =>
          match interfaces with
          | first :: _ =>
              logger WARNING "No common wired interface found. Using first detected interface: {interfaces[0]}";;
              mret (Some first)
          | [] =>
              logger ERROR "Could not detect any network interface. Please specify manually.";;
              mret None
          end
      end
  end.

(** ** Netplan Artifact Builder *)

Definition all3 (a b c : option string) : bool :=
  Py.truthy a && Py.truthy b && Py.truthy c.

Definition mk_netplan (interface_name : string) (e : ethernet) : netplan_config :=
  {| network := {| version := 2; renderer := "networkd";
                   ethernets := {[ interface_name := e ]} |} |}.

Definition _generate_netplan_yaml
    (ip_type ip_address subnet_mask gateway dns_server : option string)
    (interface_name : string) : M netplan_config :=
  if String.eqb interface_name "" then
    raise (ValueError "Network interface name is required to generate Netplan configuration.")
  else if Py.eqs ip_type "dynamic" then
    logger INFO "Generated Netplan YAML for dynamic IP on {interface_name}.";;
    mret (mk_netplan interface_name
            {| dhcp4 := Some true; addresses := None; routes := None;
               nameservers := None |})
  else if Py.eqs ip_type "static" then
    if negb (all3 ip_address subnet_mask gateway) then
      raise (ValueError "For static IP, ipAddress, subnetMask, and gateway are required.")
    else
      cidr ← subnet_mask_to_cidr (Py.str subnet_mask);
      match cidr with
      | None => raise (ValueError "Invalid subnet mask provided for CIDR conversion.")
      | Some cidr =>
          logger INFO "Generated Netplan YAML for static IP {ip_address}/{cidr} on {interface_name}.";;
          mret (mk_netplan interface_name
                  {| dhcp4 := Some false;
                     addresses := Some [Py.str ip_address +:+ "/" +:+ pretty cidr];
                     routes := Some [{| to_ := "default"; via := Py.str gateway |}];
                     nameservers :=
                       if Py.truthy dns_server
                       then Some {| ns_addresses := [Py.str dns_server] |}
                       else None |})
      end
  else
    raise (ValueError ("Invalid ipType: " +:+ Py.str ip_type
                       +:+ ". Must be 'dynamic' or 'static'.")).

(** [os.makedirs(path, exist_ok=True)] *)
Definition makedirs (path : string) : M unit := fun w =>
  match write_fault w path with
  | Some msg => (Raise (OSError msg), w)
  | None => (Ok tt, w)
  end.

Definition _write_and_apply_netplan (netplan_data : netplan_config) : M (bool * string) :=
  try_except
    (makedirs NETPLAN_CONFIG_DIR;;
     write_file NETPLAN_CONFIG_FILE (YamlDump netplan_data);;
     logger INFO "Netplan configuration written to {NETPLAN_CONFIG_FILE}";;
     '(success, output) ← run_command ["netplan"; "apply"];
     if negb success then
       raise (Exception ("Failed to apply Netplan configuration: " +:+ output))
     else
       logger INFO "Netplan configuration applied successfully.";;
       mret (true, "Netplan configuration applied successfully."))
    (fun e =>
       logger ERROR "Error writing or applying Netplan configuration: {e}";;
       mret (false, "Error applying network settings: " +:+ exn_str e)).

(** ** Legacy Network Configurator *)

Definition legacy_dynamic_config (interface_name : string) : string :=
  lines ["auto lo"; "iface lo inet loopback"; "";
         "auto " +:+ interface_name;
         "iface " +:+ interface_name +:+ " inet dhcp"].

Definition legacy_static_config
    (interface_name ip_address subnet_mask gateway dns_config : string) : string :=
  lines ["auto lo"; "iface lo inet loopback"; "";
         "auto " +:+ interface_name;
         "iface " +:+ interface_name +:+ " inet static";
         "    address " +:+ ip_address;
         "    netmask " +:+ subnet_mask;
         "    gateway " +:+ gateway;
         dns_config].

Definition _configure_legacy_network_ubuntu16
    (ip_type ip_address subnet_mask gateway dns_server : option string)
    (interface_name : string) : M (bool * string) :=
  try_except
    (interfaces_config ←
       (if Py.eqs ip_type "dynamic" then
          mret (legacy_dynamic_config interface_name)
        else if Py.eqs ip_type "static" then
          if negb (all3 ip_address subnet_mask gateway) then
            raise (ValueError "For static IP, ipAddress, subnetMask, and gateway are required.")
          else
            let dns_config :=
              if Py.truthy dns_server
              then "    dns-nameservers " +:+ Py.str dns_server
              else "    dns-nameservers 8.8.8.8" in
            mret (legacy_static_config interface_name (Py.str ip_address)
                    (Py.str subnet_mask) (Py.str gateway) dns_config)
        else
          raise (ValueError ("Invalid ipType: " +:+ Py.str ip_type
                             +:+ ". Must be 'dynamic' or 'static'.")));
     (* Backup existing file *)
     _ ← run_command ["cp"; interfaces_file; interfaces_backup];
     (* Write new configuration *)
     write_file interfaces_file (Text interfaces_config);;
     logger INFO "Network configuration written to {interfaces_file}";;
     (* First release DHCP if switching to static *)
     (if Py.eqs ip_type "static"
      then _ ← run_command ["dhclient"; "-r"; interface_name]; mret tt
      else mret tt);;
     (* Restart networking *)
     '(success, output) ← run_command ["service"; "networking"; "restart"];
     '(success, output) ←
       (if negb success then
          (* Try alternative method *)
          '(success, output) ← run_command ["ifdown"; interface_name];
          if (success : bool) then run_command ["ifup"; interface_name]
          else mret (success, output)
        else mret (success, output));
     if negb success then
       raise (Exception ("Failed to apply network configuration: " +:+ output))
     else
       logger INFO "Network configuration applied successfully for Ubuntu 16.04";;
       mret (true, "Network configuration applied successfully."))
    (fun e =>
       logger ERROR "Error configuring legacy network: {e}";;
       (* Restore backup if available *)
       _ ← run_command ["cp"; interfaces_backup; interfaces_file];
       mret (false, "Error applying network settings: " +:+ exn_str e)).

(** ** Legacy Time Configurator *)

(** [run_command(['systemctl', verb, 'ntp']) if run_command(['which',
    'systemctl'])[0] else run_command(['service', 'ntp', verb])] *)
Definition ntp_service (verb : string) : M (bool * string) :=
  '(has_systemctl, _) ← run_command ["which"; "systemctl"];
  if (has_systemctl : bool) then run_command ["systemctl"; verb; "ntp"]
  else run_command ["service"; "ntp"; verb].

Definition ntp_config (ntp_server : option string) : string :=
  lines ["# NTP configuration for Ubuntu 16.04";
         "driftfile /var/lib/ntp/ntp.drift";
         "statistics loopstats peerstats clockstats";
         "filegen loopstats file loopstats type day enable";
         "filegen peerstats file peerstats type day enable";
         "filegen clockstats file clockstats type day enable";
         "";
         "# Use specified NTP server or default";
         "server " +:+ or_default ntp_server "pool.ntp.org" +:+ " iburst";
         "server 0.ubuntu.pool.ntp.org iburst";
         "server 1.ubuntu.pool.ntp.org iburst";
         "";
         "# Access control";
         "restrict -4 default kod notrap nomodify nopeer noquery limited";
         "restrict -6 default kod notrap nomodify nopeer noquery limited";
         "restrict 127.0.0.1";
         "restrict ::1";
         "";
         "# Local clock fallback";
         "server 127.127.1.0";
         "fudge 127.127.1.0 stratum 10"].

Definition _configure_legacy_time_ubuntu16
    (time_type ntp_server manual_date manual_time : option string) : M (bool * string) :=
  try_except
    (if Py.eqs time_type "ntp" then
       logger INFO "Setting up NTP synchronization for Ubuntu 16.04";;
       (* Install ntpsec if not present *)
       _ ← run_command ["apt-get"; "update"];
       _ ← run_command ["apt-get"; "install"; "-y"; "ntpsec"];
       (* Stop ntp service first *)
       _ ← ntp_service "stop";
       write_file NTP_CONF (Text (ntp_config ntp_server));;
       (* Start and enable NTP service *)
       '(success, output) ← ntp_service "start";
       if negb success then
         raise (Exception ("Failed to start NTP service: " +:+ output))
       else
         (* Force time sync *)
         _ ← run_command ["ntpsec-ntpdate"; "-s"; or_default ntp_server "pool.ntp.org"];
         logger INFO "NTP synchronization configured for Ubuntu 16.04";;
         mret (true, "NTP synchronization enabled successfully.")
     else if Py.eqs time_type "manual" then
       if negb (Py.truthy manual_date && Py.truthy manual_time) then
         raise (ValueError "For manual time, manualDate and manualTime are required.")
       else
         (* Validate date/time format *)
         match Strptime.strptime (Py.str manual_date +:+ " " +:+ Py.str manual_time) with
         | None => raise (ValueError "Invalid date or time format. Use YYYY-MM-DD and HH:MM.")
         | Some _ =>
             logger INFO "Setting manual time for Ubuntu 16.04: {manual_date} {manual_time}";;
             (* Stop NTP service to allow manual time setting *)
             _ ← ntp_service "stop";
             let date_string := Py.str manual_date +:+ " " +:+ Py.str manual_time +:+ ":00" in
             '(success, output) ← run_command ["date"; "-s"; date_string];
             if negb success then
               raise (Exception ("Failed to set manual time: " +:+ output))
             else
               (* Update hardware clock *)
               _ ← run_command ["hwclock"; "--systohc"];
               logger INFO "Manual time set successfully for Ubuntu 16.04";;
               mret (true, "Manual time set successfully.")
         end
     else
       raise (ValueError ("Invalid timeType: " +:+ Py.str time_type
                          +:+ ". Must be 'ntp' or 'manual'.")))
    (fun e =>
       logger ERROR "Error configuring legacy time: {e}";;
       mret (false, "Error applying time settings: " +:+ exn_str e)).

(** ** Request Handlers *)

(** [jsonify({"status": ..., "message": ...}), code] *)
Record Response := { status : string; message : string; code : Z }.

Definition jsonify (st msg : string) (c : Z) : Response :=
  {| status := st; message := msg; code := c |}.

(** The branch of [apply_network_settings] for modern releases. *)
Definition modern_network
    (ip_type ip_address subnet_mask gateway dns_server : option string)
    (interface_name : string) : M (bool * string) :=
  netplan_config ← _generate_netplan_yaml ip_type ip_address subnet_mask gateway
                     dns_server interface_name;
  _write_and_apply_netplan netplan_config.

(** [if ubuntu_version == "16.04": ... else: ...] of
    [apply_network_settings]: the configurator a release is handed to. *)
Definition network_configurator (ubuntu_version : string)
    : option string -> option string -> option string -> option string ->
      option string -> string -> M (bool * string) :=
  if String.eqb ubuntu_version "16.04"
  then _configure_legacy_network_ubuntu16
  else modern_network.

(** The request body is the dict [data]; a missing or null body is the
    empty dict. *)
Definition apply_network_settings (data : gmap string string) : M Response :=
  if bool_decide (data = ∅) then
    logger WARNING "No JSON data received for network settings.";;
    mret (jsonify "error" "No JSON data provided." 400)
  else
    let ip_type := data !! "ipType" in
    let ip_address := data !! "ipAddress" in
    let subnet_mask := data !! "subnetMask" in
    let gateway := data !! "gateway" in
    let dns_server := data !! "dnsServer" in
    logger INFO "Received network configuration request: {data}";;
    try_except
      (interface_name ← _get_network_interface_name;
       if negb (Py.truthy interface_name) then
         mret (jsonify "error"
                 "Could not detect network interface. Please configure manually." 500)
       else
         let interface_name := Py.str interface_name in
         (* Detect Ubuntu version and use appropriate configuration method *)
         ubuntu_version ← _get_ubuntu_version;
         logger INFO "Detected Ubuntu version: {ubuntu_version}";;
         '(success, message) ←
           network_configurator ubuntu_version ip_type ip_address subnet_mask
             gateway dns_server interface_name;
         if (success : bool) then
           logger INFO "Network settings applied: {message}";;
           mret (jsonify "success" message 200)
         else
           logger ERROR "Failed to apply network settings: {message}";;
           mret (jsonify "error" message 500))
      (fun e =>
         match e with
         | ValueError ve =>
             logger WARNING "Invalid input for network settings: {ve}";;
             mret (jsonify "error" ve 400)
         | _ =>
             logger CRITICAL "Unexpected error in apply_network_settings: {e}";;
             mret (jsonify "error" ("An unexpected error occurred: " +:+ exn_str e) 500)
         end).

Definition disable_dhcp : M Response :=
  logger INFO "Received request to disable DHCP.";;
  try_except
    (interface_name ← _get_network_interface_name;
     if negb (Py.truthy interface_name) then
       mret (jsonify "error" "Could not detect network interface to disable DHCP." 500)
     else
       let interface_name := Py.str interface_name in
       (* 1. Release current DHCP lease *)
       '(success_release, output_release) ←
         run_command ["dhclient"; "-r"; interface_name];
       (if negb success_release && negb (Py.contains "No DHCPOFF" output_release)
        then logger WARNING "Failed to release DHCP lease on {interface_name}: {output_release}. Proceeding anyway."
        else logger INFO "DHCP lease released on {interface_name}.");;
       (* 2. Stop and disable NetworkManager *)
       '(success_nm_stop, output_nm_stop) ←
         run_command ["systemctl"; "stop"; "NetworkManager"];
       (if negb success_nm_stop && negb (Py.contains "not running" output_nm_stop)
           && negb (Py.contains "Unit NetworkManager.service not loaded" output_nm_stop)
        then logger WARNING "Failed to stop NetworkManager: {output_nm_stop}. Proceeding anyway."
        else logger INFO "NetworkManager stopped (if it was running).");;
       '(success_nm_disable, output_nm_disable) ←
         run_command ["systemctl"; "disable"; "NetworkManager"];
       (if negb success_nm_disable
           && negb (Py.contains "No such file or directory" output_nm_disable)
           && negb (Py.contains "Unit NetworkManager.service not loaded" output_nm_disable)
        then logger WARNING "Failed to disable NetworkManager: {output_nm_disable}. Proceeding anyway."
        else logger INFO "NetworkManager disabled (if it was enabled).");;
       (* 3. Stop and disable dhclient *)
       '(success_dhclient_stop, output_dhclient_stop) ←
         run_command ["systemctl"; "stop"; "isc-dhcp-client"];
       (if negb success_dhclient_stop
           && negb (Py.contains "not running" output_dhclient_stop)
           && negb (Py.contains "Unit isc-dhcp-client.service not loaded" output_dhclient_stop)
        then logger WARNING "Failed to stop isc-dhcp-client: {output_dhclient_stop}. Proceeding anyway."
        else logger INFO "isc-dhcp-client stopped (if it was running).");;
       '(success_dhclient_disable, output_dhclient_disable) ←
         run_command ["systemctl"; "disable"; "isc-dhcp-client"];
       (if negb success_dhclient_disable
           && negb (Py.contains "No such file or directory" output_dhclient_disable)
           && negb (Py.contains "Unit isc-dhcp-client.service not loaded" output_dhclient_disable)
        then logger WARNING "Failed to disable isc-dhcp-client: {output_dhclient_disable}. Proceeding anyway."
        else logger INFO "isc-dhcp-client disabled (if it was enabled).");;
       (* 4. Kill any remaining dhclient processes *)
       '(success_pkill_dhclient, output_pkill_dhclient) ←
         run_command ["pkill"; "dhclient"];
       (if negb success_pkill_dhclient
           && negb (Py.contains "No process found" output_pkill_dhclient)
        then logger WARNING "Failed to pkill dhclient processes: {output_pkill_dhclient}. Proceeding anyway."
        else logger INFO "Any remaining dhclient processes killed.");;
       logger INFO "DHCP successfully disabled and related services stopped/disabled.";;
       mret (jsonify "success" "DHCP disabled successfully." 200))
    (fun e =>
       logger CRITICAL "Unexpected error in disable_dhcp: {e}";;
       mret (jsonify "error"
               ("An unexpected error occurred while disabling DHCP: " +:+ exn_str e) 500)).

(** The branch of [apply_time_settings] for modern releases: [inl] is a
    response returned on the spot, [inr] the pair the handler goes on with. *)
Definition modern_time
    (time_type ntp_server manual_date manual_time : option string)
    : M (Response + bool * string) :=
  if Py.eqs time_type "ntp" then
    logger INFO "Setting time synchronization to NTP with server: {ntp_server if ntp_server else DEFAULT_NTP_SERVER}";;
    (* Disable manual NTP first *)
    '(success_disable, error_disable) ← run_command ["timedatectl"; "set-ntp"; "false"];
    if negb success_disable then
      logger ERROR "Failed to disable NTP: {error_disable}";;
      mret (inl (jsonify "error" ("Failed to disable NTP: " +:+ error_disable) 500))
    else
      (* Enable NTP *)
      '(success_enable, error_enable) ← run_command ["timedatectl"; "set-ntp"; "true"];
      if negb success_enable then
        logger ERROR "Failed to enable NTP: {error_enable}";;
        mret (inl (jsonify "error" ("Failed to enable NTP: " +:+ error_enable) 500))
      else
        mret (inr (true, "NTP synchronization enabled successfully."))
  else if Py.eqs time_type "manual" then
    if negb (Py.truthy manual_date && Py.truthy manual_time) then
      mret (inl (jsonify "error"
                   "For manual time, manualDate and manualTime are required." 400))
    else
      match Strptime.strptime (Py.str manual_date +:+ " " +:+ Py.str manual_time) with
      | None =>
          mret (inl (jsonify "error"
                       "Invalid date or time format. Use YYYY-MM-DD and HH:MM." 400))
      | Some _ =>
          logger INFO "Setting manual time to: {manual_date} {manual_time}";;
          (* Disable NTP first *)
          '(success_disable, error_disable) ←
            run_command ["timedatectl"; "set-ntp"; "false"];
          if negb success_disable then
            mret (inl (jsonify "error" ("Failed to disable NTP: " +:+ error_disable) 500))
          else
            (* Set the date and time *)
            let set_time_command :=
              ["timedatectl"; "set-time";
               Py.str manual_date +:+ " " +:+ Py.str manual_time +:+ ":00"] in
            '(success_set_time, error_set_time) ← run_command set_time_command;
            if (success_set_time : bool) then
              mret (inr (true, "Manual time set successfully."))
            else
              mret (inr (false, "Failed to set manual time: " +:+ error_set_time))
      end
  else
    mret (inl (jsonify "error" "Invalid timeType. Must be 'ntp' or 'manual'." 400)).

(** The legacy configurator as a branch of [apply_time_settings]: it never
    returns on the spot. *)
Definition legacy_time
    (time_type ntp_server manual_date manual_time : option string)
    : M (Response + bool * string) :=
  p ← _configure_legacy_time_ubuntu16 time_type ntp_server manual_date manual_time;
  mret (inr p).

(** [if ubuntu_version == "16.04": ... else: ...] of [apply_time_settings] *)
Definition time_configurator (ubuntu_version : string)
    : option string -> option string -> option string -> option string ->
      M (Response + bool * string) :=
  if String.eqb ubuntu_version "16.04" then legacy_time else modern_time.

Definition apply_time_settings (data : gmap string string) : M Response :=
  if bool_decide (data = ∅) then
    logger WARNING "No JSON data received for time settings.";;
    mret (jsonify "error" "No JSON data provided." 400)
  else
    let time_type := data !! "timeType" in
    let ntp_server := data !! "ntpServer" in
    let manual_date := data !! "manualDate" in
    let manual_time := data !! "manualTime" in
    logger INFO "Received time configuration request: {data}";;
    try_except
      (ubuntu_version ← _get_ubuntu_version;
       logger INFO "Detected Ubuntu version: {ubuntu_version}";;
       r ← time_configurator ubuntu_version time_type ntp_server manual_date
             manual_time;
       match r with
       | inl response => mret response
       | inr (success, message) =>
           (* Return result *)
           if (success : bool) then
             logger INFO "Time settings applied: {message}";;
             mret (jsonify "success" message 200)
           else
             logger ERROR "Failed to apply time settings: {message}";;
             mret (jsonify "error" message 500)
       end)
      (fun e =>
         match e with
         | ValueError ve =>
             logger WARNING "Invalid input for time settings: {ve}";;
             mret (jsonify "error" ve 400)
         | _ =>
             logger CRITICAL "Unexpected error in apply_time_settings: {e}";;
             mret (jsonify "error" ("An unexpected error occurred: " +:+ exn_str e) 500)
         end).

(** * Specification vocabulary *)

(** [wp m Q w]: running [m] from [w] ends in a result and a world that
    satisfy [Q]. *)
Definition wp {A} (m : M A) (Q : res A -> World -> Prop) (w : World) : Prop :=
  Q (m w).1 (m w).2.

(** The fields no computation of the service changes. *)
Definition same_host (w w' : World) : Prop :=
  IN_DOCKER_TEST_MODE w' = IN_DOCKER_TEST_MODE w
  /\ write_fault w' = write_fault w
  /\ sys_class_net w' = sys_class_net w
  /\ host w' = host w.

(** [w'] is [w] with more log records. *)
Definition only_logs (w w' : World) : Prop :=
  same_host w w' /\ files w' = files w /\ procs w' = procs w /\ calls w' = calls w.

Definition is_mocked (w : World) (c : list string) : bool :=
  IN_DOCKER_TEST_MODE w && negb (bool_decide (c = []))
  && list_contains (default "" (head c)) mocked_commands.

Definition is_cp (c : list string) : bool :=
  match c with
  | [name; _; _] => String.eqb name "cp"
  | _ => false
  end.

Record run_post (c : list string) (w : World) (r : bool * string) (w' : World) : Prop := {
  rp_calls : calls w' = calls w ++ [(c, r)];
  rp_host : same_host w w';
  rp_mocked : is_mocked w (strip_sudo c) = true ->
              r.1 = true /\ files w' = files w /\ procs w' = procs w;
  rp_real : is_mocked w (strip_sudo c) = false -> strip_sudo c <> [] ->
            procs w' = procs w ++ [strip_sudo c];
  rp_files : is_cp (strip_sudo c) = false -> files w' = files w;
  rp_cp : forall src dst, strip_sudo c = ["cp"; src; dst] ->
          if r.1
          then exists x, files w !! src = Some x /\ write_fault w dst = None
                         /\ files w' = <[dst := x]> (files w)
          else files w' = files w;
  rp_cp_ok : forall src dst x, strip_sudo c = ["cp"; src; dst] ->
             files w !! src = Some x -> write_fault w dst = None -> r.1 = true
}.

(** * Sample hosts *)

Definition release_text (version_id : string) : string :=
  lines ["NAME=" +:+ Py.dq +:+ "Ubuntu" +:+ Py.dq;
         "VERSION_ID=" +:+ Py.dq +:+ version_id +:+ Py.dq].

(** A host with a loopback, a wireless and a wired adapter, on which every
    path can be written. *)
Definition sample_host (mock : bool) (fs : gmap string content)
    (h : list (list string) -> list string -> proc_result) : World :=
  {| IN_DOCKER_TEST_MODE := mock; files := fs; write_fault := fun _ => None;
     sys_class_net := Some [("lo", true); ("wlan0", true); ("eth0", true)];
     host := h; procs := []; calls := []; logs := [] |}.

Definition set_adapters (entries : option (list (string * bool))) (w : World) : World :=
  {| IN_DOCKER_TEST_MODE := IN_DOCKER_TEST_MODE w; files := files w;
     write_fault := write_fault w; sys_class_net := entries;
     host := host w; procs := procs w; calls := calls w; logs := logs w |}.

Definition failure (stderr : string) : proc_result := CalledProcessError 1 "" stderr.

(** every process succeeds silently *)
Definition host_ok : list (list string) -> list string -> proc_result :=
  fun _ _ => Completed "".

(** every process fails *)
Definition host_failing : list (list string) -> list string -> proc_result :=
  fun _ _ => failure "failed".

(** the processes whose name is [name] fail, the others succeed *)
Definition host_failing_on (name : string)
    : list (list string) -> list string -> proc_result :=
  fun _ c => if String.eqb (default "" (head c)) name then failure "failed"
             else Completed "".

(** the commands [c1] and [c2] fail, the others succeed *)
Definition host_failing_cmds (c1 c2 : list string)
    : list (list string) -> list string -> proc_result :=
  fun _ c => if bool_decide (c = c1) || bool_decide (c = c2) then failure "failed"
             else Completed "".

Definition legacy_files : gmap string content :=
  {[ OS_RELEASE := Text (release_text "16.04");
     interfaces_file := Text "original" ]}.

Definition modern_files : gmap string content :=
  {[ OS_RELEASE := Text (release_text "22.04") ]}.

Definition static_request : gmap string string :=
  {[ "ipType" := "static"; "ipAddress" := "192.168.1.50";
     "subnetMask" := "255.255.255.0"; "gateway" := "192.168.1.1" ]}.

Definition manual_request (date time : string) : gmap string string :=
  {[ "timeType" := "manual"; "manualDate" := date; "manualTime" := time ]}.

(** * Masks and hosts for further properties *)

(** the dotted-quad text of a 32-bit value *)
Definition dotted_quad (n : Z) : string :=
  Py.join "." [pretty (Z.land (Z.shiftr n 24) 255); pretty (Z.land (Z.shiftr n 16) 255);
               pretty (Z.land (Z.shiftr n 8) 255); pretty (Z.land n 255)].

(** the netmask with [p] leading ones, and the host mask with [32 - p]
    trailing ones *)
Definition netmask_of_prefix (p : Z) : string :=
  dotted_quad (Z.shiftl (2 ^ p - 1) (32 - p)).

Definition hostmask_of_prefix (p : Z) : string :=
  dotted_quad (2 ^ (32 - p) - 1).

(** a host on which the path [path] cannot be written *)
Definition set_write_fault (path msg : string) (w : World) : World :=
  {| IN_DOCKER_TEST_MODE := IN_DOCKER_TEST_MODE w; files := files w;
     write_fault := fun p => if String.eqb p path then Some msg else write_fault w p;
     sys_class_net := sys_class_net w;
     host := host w; procs := procs w; calls := calls w; logs := logs w |}.

(** * Facts about the Python primitives *)

Lemma list_contains_In x l : list_contains x l = true <-> In x l.
Proof.
  unfold list_contains. rewrite existsb_exists. split.
  - intros (y & Hy & ->%String.eqb_eq). done.
  - intros H. exists x. split; [done|]. apply String.eqb_refl.
Qed.

Lemma list_contains_not_In x l : list_contains x l = false <-> ~ In x l.
Proof.
  rewrite <- list_contains_In. destruct (list_contains x l); split; congruence.
Qed.

Lemma append_cons c (p b : string) : String c p +:+ b = String c (p +:+ b).
Proof. reflexivity. Qed.

Lemma append_nil (b : string) : "" +:+ b = b.
Proof. reflexivity. Qed.

Lemma startswith_spec p s : Py.startswith p s = true <-> exists b, s = p +:+ b.
Proof.
  revert s. induction p as [|a p IH]; intros s; simpl.
  - split; eauto.
  - destruct s as [|c s]; simpl.
    + split; [done|]. intros (b & Hb). discriminate.
    + destruct (decide (a = c)) as [->|Hne].
      * rewrite IH. split; intros (b & Hb); exists b;
          rewrite ?append_cons in *; congruence.
      * split; [done|]. intros (b & Hb). rewrite append_cons in Hb. congruence.
Qed.

(** [sub in s] holds exactly when [s] is some text, [sub], some text. *)
Lemma contains_spec sub s :
  Py.contains sub s = true <-> exists a b, s = a +:+ sub +:+ b.
Proof.
  induction s as [|c s IH]; simpl.
  - rewrite orb_false_r, startswith_spec. split.
    + intros (b & Hb). by exists "", b.
    + intros (a & b & Hab). destruct a; [by exists b|discriminate].
  - rewrite orb_true_iff, startswith_spec, IH. split.
    + intros [(b & Hb)|(a & b & Hab)].
      * by exists "", b.
      * exists (String c a), b. rewrite append_cons. by rewrite Hab.
    + intros (a & b & Hab). destruct a as [|c' a]; rewrite ?append_cons, ?append_nil in Hab.
      * left. by exists b.
      * right. exists a, b. congruence.
Qed.

Lemma release_message_not_generic iface :
  "Mocked: DHCP release successful."
  <> "Mocked: " +:+ Py.join " " ["dhclient"; "-r"; iface]
     +:+ " - This command would normally run on a full Ubuntu OS.".
Proof. discriminate. Qed.

Lemma eqb_neq_false (s t : string) : s <> t -> String.eqb s t = false.
Proof. by intros ?%String.eqb_neq. Qed.

Lemma truthy_Some s : s <> "" -> Py.truthy (Some s) = true.
Proof. intros H. unfold Py.truthy. by rewrite eqb_neq_false. Qed.

Lemma mocked_not_sudo name : In name mocked_commands -> String.eqb name "sudo" = false.
Proof.
  intros H. apply eqb_neq_false. intros ->.
  simpl in H. intuition discriminate.
Qed.

Lemma interfaces_file_ne_backup : interfaces_file <> interfaces_backup.
Proof. discriminate. Qed.

(** ** The primitives on examples *)

Example join_ex : Py.join " " ["dhclient"; "-r"; "eth0"] = "dhclient -r eth0".
Proof. reflexivity. Qed.
Example strip_ex : Py.strip (" a b " +:+ Py.nl) = "a b".
Proof. reflexivity. Qed.
Example split_ex : Py.split "."%char "255.255.255.0" = ["255"; "255"; "255"; "0"].
Proof. reflexivity. Qed.
Example contains_ex : Py.contains "not found" "bash: command NOT FOUND" = false.
Proof. reflexivity. Qed.
Example pretty_ex : pretty 24%Z = "24".
Proof. reflexivity. Qed.
Example prefix_24 : Ipaddress.IPv4Network_prefixlen "0.0.0.0/255.255.255.0" = inr 24.
Proof. reflexivity. Qed.
Example prefix_hostmask : Ipaddress.IPv4Network_prefixlen "0.0.0.0/0.0.0.255" = inr 24.
Proof. reflexivity. Qed.
Example prefix_digits : Ipaddress.IPv4Network_prefixlen "0.0.0.0/16" = inr 16.
Proof. reflexivity. Qed.
Example prefix_mixed :
  Ipaddress.IPv4Network_prefixlen "0.0.0.0/255.0.255.0" = inl Ipaddress.NetmaskValueError.
Proof. reflexivity. Qed.
Example prefix_slash :
  Ipaddress.IPv4Network_prefixlen "0.0.0.0/24/1" = inl Ipaddress.AddressValueError.
Proof. reflexivity. Qed.
Example strptime_ok :
  Strptime.strptime "2024-02-29 10:00" = Some (2024, 2, 29, 10, 0).
Proof. reflexivity. Qed.
Example strptime_short : Strptime.strptime "2024-1-5 9:5" = Some (2024, 1, 5, 9, 5).
Proof. reflexivity. Qed.
Example strptime_month13 : Strptime.strptime "2024-13-01 10:00" = None.
Proof. reflexivity. Qed.
Example strptime_feb30 : Strptime.strptime "2023-02-29 10:00" = None.
Proof. reflexivity. Qed.
(** * Reasoning about computations *)


Section WP.
Context {A B : Type}.

Lemma wp_ret (a : A) Q w : Q (Ok a) w -> wp (mret a) Q w.
Proof. done. Qed.

Lemma wp_raise (e : exn) (Q : res A -> World -> Prop) w :
  Q (Raise e) w -> wp (raise e) Q w.
Proof. done. Qed.

Lemma wp_bind (m : M A) (k : A -> M B) Q w :
  wp m (fun r w' => match r with
                    | Ok a => wp (k a) Q w'
                    | Raise e => Q (Raise e) w'
                    end) w ->
  wp (m ≫= k) Q w.
Proof.
  unfold wp, mbind, M_bind. destruct (m w) as [[a|e] w']; simpl; auto.
Qed.

Lemma wp_try (body : M A) (handler : exn -> M A) Q w :
  wp body (fun r w' => match r with
                       | Ok a => Q (Ok a) w'
                       | Raise e => wp (handler e) Q w'
                       end) w ->
  wp (try_except body handler) Q w.
Proof.
  unfold wp, try_except. destruct (body w) as [[a|e] w']; simpl; auto.
Qed.

Lemma wp_mono (m : M A) (Q Q' : res A -> World -> Prop) w :
  wp m Q w -> (forall r w', Q r w' -> Q' r w') -> wp m Q' w.
Proof. unfold wp. auto. Qed.

Lemma wp_gets (f : World -> A) Q w : Q (Ok (f w)) w -> wp (gets f) Q w.
Proof. done. Qed.

Lemma wp_run (m : M A) Q w : wp m Q w -> forall r w', m w = (r, w') -> Q r w'.
Proof. unfold wp. intros H r w' E. by rewrite E in H. Qed.

End WP.

Lemma wp_logger l msg Q w : Q (Ok tt) (add_log l msg w) -> wp (logger l msg) Q w.
Proof. done. Qed.

Lemma wp_modify f Q w : Q (Ok tt) (f w) -> wp (modify f) Q w.
Proof. done. Qed.

Lemma wp_write_file path c Q w :
  (forall msg, write_fault w path = Some msg -> Q (Raise (OSError msg)) w) ->
  (write_fault w path = None -> Q (Ok tt) (set_files (<[path := c]> (files w)) w)) ->
  wp (write_file path c) Q w.
Proof.
  intros H1 H2. unfold wp, write_file.
  destruct (write_fault w path) as [msg|]; simpl; auto.
Qed.


(** ** The call record of [run_command] *)

Lemma list_contains_cp_mocked : list_contains "cp" mocked_commands = false.
Proof. reflexivity. Qed.

Lemma is_mocked_cp w src dst : is_mocked w ["cp"; src; dst] = false.
Proof. unfold is_mocked. simpl. by rewrite andb_false_r. Qed.

#[local] Opaque String.eqb list_contains String.append.
#[local] Opaque Py.contains Py.strip Py.lower Py.join.

Ltac rp_fields :=
  constructor; unfold is_mocked, is_cp, same_host, strip_sudo; cbn;
  intros; simplify_eq/=;
  try congruence;
  repeat match goal with
         | H : String.eqb ?n "cp" = true |- _ => apply String.eqb_eq in H; subst n
         end;
  rewrite ?String.eqb_refl, ?list_contains_cp_mocked in *;
  repeat match goal with
         | H : ?x = true |- _ => rewrite H in *
         | H : ?x = false |- _ => rewrite H in *
         end; cbn in *; rewrite ?andb_false_r in *;
  simplify_eq/=;
  try done; try congruence; eauto.

Ltac run_cases w :=
  repeat (match goal with
          | |- context [match host w ?h ?c with _ => _ end] =>
              destruct (host w h c) eqn:?
          | |- context [match files w !! ?p with _ => _ end] =>
              destruct (files w !! p) eqn:?
          | |- context [match write_fault w ?p with _ => _ end] =>
              destruct (write_fault w p) eqn:?
          | |- context [if ?b then _ else _] => destruct b eqn:?
          end; cbn).

Ltac run_core w :=
  destruct (IN_DOCKER_TEST_MODE w) eqn:?; cbn;
  unfold subprocess_run, cp; cbn;
  run_cases w;
  eexists _, _; (split; [reflexivity|]); rp_fields.

(** [run_command] never raises, and [run_post] describes the world it
    leaves. *)
Lemma run_command_post c w :
  exists r w', run_command c w = (Ok r, w') /\ run_post c w r w'.
Proof.
  unfold run_command, run_command_body.
  unfold mbind, M_bind, mret, M_ret, logger, modify, gets, when. cbn.
  destruct c as [|first rest].
  - run_core w.
  - destruct (String.eqb first "sudo") eqn:Es; cbn.
    + destruct rest as [|? [|? [|? [|? ?]]]]; cbn; run_core w.
    + destruct rest as [|? [|? [|? ?]]]; cbn; run_core w.
Qed.

Lemma wp_run_command c (Q : res (bool * string) -> World -> Prop) w :
  (forall r w', run_post c w r w' -> Q (Ok r) w') -> wp (run_command c) Q w.
Proof.
  intros H. destruct (run_command_post c w) as (r & w' & E & P).
  unfold wp. rewrite E. simpl. auto.
Qed.

Lemma wp_intro {A} (m : M A) (P : A -> World -> Prop) w :
  wp m (fun r w' => exists a, r = Ok a /\ P a w') w ->
  exists a w', m w = (Ok a, w') /\ P a w'.
Proof.
  unfold wp. destruct (m w) as [r w']. simpl. intros (a & -> & H). eauto.
Qed.

Lemma same_host_refl w : same_host w w.
Proof. by repeat split. Qed.

Lemma same_host_trans w1 w2 w3 : same_host w1 w2 -> same_host w2 w3 -> same_host w1 w3.
Proof. unfold same_host. intros (?&?&?&?) (?&?&?&?). repeat split; congruence. Qed.

Lemma only_logs_refl w : only_logs w w.
Proof. by repeat split. Qed.

Lemma only_logs_log l msg w : only_logs w (add_log l msg w).
Proof. by repeat split. Qed.

(** ** Detection reads the host and writes the log *)

Lemma interface_name_post w :
  exists o w', _get_network_interface_name w = (Ok o, w') /\ only_logs w w'.
Proof.
  unfold _get_network_interface_name, mbind, M_bind, gets, logger, modify. cbn.
  destruct (sys_class_net w) as [es|]; cbn.
  - destruct (find is_wired (scanned_interfaces es)); cbn.
    + eexists _, _. split; [reflexivity|]. by repeat split.
    + destruct (scanned_interfaces es); cbn;
        (eexists _, _; split; [reflexivity|]; by repeat split).
  - eexists _, _. split; [reflexivity|]. by repeat split.
Qed.

Lemma interface_name_indep w1 w :
  sys_class_net w1 = sys_class_net w ->
  (_get_network_interface_name w1).1 = (_get_network_interface_name w).1.
Proof.
  intros E. unfold _get_network_interface_name, mbind, M_bind, gets, logger, modify.
  cbn. rewrite E. destruct (sys_class_net w) as [es|]; cbn; [|done].
  destruct (find is_wired (scanned_interfaces es)); cbn; [done|].
  by destruct (scanned_interfaces es).
Qed.

Lemma wp_interface_name w0 (Q : res (option string) -> World -> Prop) w :
  sys_class_net w = sys_class_net w0 ->
  (forall o w', (_get_network_interface_name w0).1 = Ok o -> only_logs w w' ->
                Q (Ok o) w') ->
  wp _get_network_interface_name Q w.
Proof.
  intros E H. destruct (interface_name_post w) as (o & w' & Eq & L).
  unfold wp. rewrite Eq. simpl. apply H; [|done].
  rewrite <- (interface_name_indep w w0 E). by rewrite Eq.
Qed.

Lemma ubuntu_version_post w :
  exists v, _get_ubuntu_version w = (Ok v, w).
Proof.
  unfold _get_ubuntu_version. repeat case_match; eauto.
Qed.

Lemma ubuntu_version_indep w1 w :
  files w1 = files w -> (_get_ubuntu_version w1).1 = (_get_ubuntu_version w).1.
Proof.
  intros E. unfold _get_ubuntu_version. rewrite E. by repeat case_match.
Qed.

Lemma wp_ubuntu_version w0 (Q : res string -> World -> Prop) w :
  files w = files w0 ->
  (forall v, (_get_ubuntu_version w0).1 = Ok v -> Q (Ok v) w) ->
  wp _get_ubuntu_version Q w.
Proof.
  intros E H. destruct (ubuntu_version_post w) as (v & Eq).
  unfold wp. rewrite Eq. simpl. apply H.
  rewrite <- (ubuntu_version_indep w w0 E). by rewrite Eq.
Qed.

(** ** Symbolic execution *)

Lemma wp_log_either (b : bool) l1 m1 l2 m2 (Q : res unit -> World -> Prop) w :
  (forall w', only_logs w w' -> Q (Ok tt) w') ->
  wp (if b then logger l1 m1 else logger l2 m2) Q w.
Proof. intros H. destruct b; apply wp_logger, H, only_logs_log. Qed.


(** One step of symbolic execution. *)
Ltac wp_step :=
  lazymatch goal with
  | |- wp (mbind _ _) _ _ => apply wp_bind
  | |- wp (mret _) _ _ => apply wp_ret
  | |- wp (raise _) _ _ => apply wp_raise
  | |- wp (if _ then logger _ _ else logger _ _) _ _ =>
      let w := fresh "w" in let L := fresh "L" in
      apply wp_log_either; intros w L
  | |- wp (logger _ _) _ _ => apply wp_logger
  | |- wp (try_except _ _) _ _ => apply wp_try
  | |- wp (gets _) _ _ => apply wp_gets
  | |- wp (modify _) _ _ => apply wp_modify
  | |- wp (run_command _) _ _ =>
      let r := fresh "ok" in let o := fresh "out" in
      let w := fresh "w" in let P := fresh "P" in
      apply wp_run_command; intros [r o] w P
  end; cbn beta iota.

Ltac wp_steps := repeat wp_step.

(** Collect what is known of the call record and rewrite with it. *)
Ltac calls_facts :=
  repeat match goal with
         | L : only_logs _ _ |- _ =>
             let Hh := fresh "Hh" in let Hf := fresh "Hf" in
             let Hp := fresh "Hp" in let Hc := fresh "Hc" in
             destruct L as (Hh & Hf & Hp & Hc); cbn in Hh, Hf, Hp, Hc
         | P : run_post _ _ _ _ |- _ =>
             let Hc := fresh "Hc" in
             pose proof (rp_calls _ _ _ _ P) as Hc; cbn in Hc; clear P
         end.

Ltac calls_chain :=
  cbn;
  repeat match goal with
         | H : calls ?x = _ |- context [calls ?x] => rewrite H
         end;
  rewrite <- ?app_assoc; cbn.


(** ** Conversion, detection and request facts *)

Lemma cidr_indep m w1 w : (subnet_mask_to_cidr m w1).1 = (subnet_mask_to_cidr m w).1.
Proof. unfold subnet_mask_to_cidr. by repeat case_match. Qed.

Lemma cidr_post m w :
  exists o w', subnet_mask_to_cidr m w = (Ok o, w') /\ only_logs w w'.
Proof.
  unfold subnet_mask_to_cidr.
  repeat case_match; eexists _, _; (split; [reflexivity|]); by repeat split.
Qed.

Lemma wp_cidr m w0 (Q : res (option Z) -> World -> Prop) w :
  (forall o w', (subnet_mask_to_cidr m w0).1 = Ok o -> only_logs w w' -> Q (Ok o) w') ->
  wp (subnet_mask_to_cidr m) Q w.
Proof.
  intros H. destruct (cidr_post m w) as (o & w' & E & L).
  unfold wp. rewrite E. simpl. apply H; [|done].
  rewrite (cidr_indep m w0 w). by rewrite E.
Qed.

Lemma prefix_cases (p : Z) :
  0 <= p <= 32 ->
  In p [0; 1; 2; 3; 4; 5; 6; 7; 8; 9; 10; 11; 12; 13; 14; 15; 16; 17; 18; 19; 20;
        21; 22; 23; 24; 25; 26; 27; 28; 29; 30; 31; 32].
Proof.
  intros H. simpl.
  assert (p = 0 \/ p = 1 \/ p = 2 \/ p = 3 \/ p = 4 \/ p = 5 \/ p = 6 \/ p = 7
          \/ p = 8 \/ p = 9 \/ p = 10 \/ p = 11 \/ p = 12 \/ p = 13 \/ p = 14
          \/ p = 15 \/ p = 16 \/ p = 17 \/ p = 18 \/ p = 19 \/ p = 20 \/ p = 21
          \/ p = 22 \/ p = 23 \/ p = 24 \/ p = 25 \/ p = 26 \/ p = 27 \/ p = 28
          \/ p = 29 \/ p = 30 \/ p = 31 \/ p = 32) by lia.
  intuition.
Qed.

Lemma cidr_value m w :
  (subnet_mask_to_cidr m w).1
  = Ok (match Ipaddress.IPv4Network_prefixlen ("0.0.0.0/" +:+ m) with
        | inr p => Some p
        | inl _ => None
        end).
Proof. unfold subnet_mask_to_cidr. by repeat case_match. Qed.

(** The library's reading of the netmask with [p] leading ones. *)
Lemma netmask_prefixlen (p : Z) :
  0 <= p <= 32 ->
  Ipaddress.IPv4Network_prefixlen ("0.0.0.0/" +:+ netmask_of_prefix p) = inr p.
Proof.
  intros H%prefix_cases.
  repeat (destruct H as [<-|H]; [vm_compute; reflexivity|]). destruct H.
Qed.

Lemma netmask_nonempty (p : Z) : 0 <= p <= 32 -> netmask_of_prefix p <> "".
Proof.
  intros H%prefix_cases.
  repeat (destruct H as [<-|H]; [vm_compute; discriminate|]). destruct H.
Qed.






Lemma interface_name_value w :
  (_get_network_interface_name w).1 =
  Ok (match sys_class_net w with
      | None => None
      | Some entries =>
          match find is_wired (scanned_interfaces entries) with
          | Some i => Some i
          | None => head (scanned_interfaces entries)
          end
      end).
Proof.
  unfold _get_network_interface_name, mbind, M_bind, gets, logger, modify. cbn.
  destruct (sys_class_net w) as [es|]; cbn; [|done].
  destruct (find is_wired (scanned_interfaces es)); cbn; [done|].
  by destruct (scanned_interfaces es).
Qed.

Lemma data_nonempty (data : gmap string string) :
  data <> ∅ -> bool_decide (data = ∅) = false.
Proof. intros H. by apply bool_decide_eq_false. Qed.



Lemma ubuntu_version_16 w :
  (_get_ubuntu_version w).1 = Ok "16.04" <->
  exists content,
    files w !! OS_RELEASE = Some (Text content)
    /\ Py.contains ("VERSION_ID=" +:+ Py.dq +:+ "16.04" +:+ Py.dq) content = true.
Proof.
  unfold _get_ubuntu_version.
  destruct (files w !! OS_RELEASE) as [[content|d]|]; simpl.
  - destruct (Py.contains ("VERSION_ID=" +:+ Py.dq +:+ "16.04" +:+ Py.dq) content)
      eqn:E1; simpl.
    + split; [eauto|done].
    + destruct (Py.contains ("VERSION_ID=" +:+ Py.dq +:+ "18.04" +:+ Py.dq) content);
        simpl; (split; [discriminate|]); intros (c & [= <-] & H); congruence.
  - split; [discriminate|]. by intros (c & [=] & _).
  - split; [discriminate|]. by intros (c & [=] & _).
Qed.


Lemma data_lookup_nonempty (data : gmap string string) k v :
  data !! k = Some v -> bool_decide (data = ∅) = false.
Proof.
  intros H. apply bool_decide_eq_false. intros ->. by rewrite lookup_empty in H.
Qed.


Lemma eqs_true o lit : Py.eqs o lit = true <-> o = Some lit.
Proof.
  destruct o as [s|]; simpl; [|by split].
  rewrite String.eqb_eq. split; congruence.
Qed.

Lemma wp_intro3 {A C} (m : M A) (P : A -> World -> C -> Prop) w :
  wp m (fun r w' => exists a c, r = Ok a /\ P a w' c) w ->
  exists a w' c, m w = (Ok a, w') /\ P a w' c.
Proof.
  unfold wp. destruct (m w) as [r w']. simpl. intros (a & c & -> & H). eauto.
Qed.

(** ** Execution of a whole configurator *)

Lemma pair_eta {A B} (p : A * B) : p = (p.1, p.2).
Proof. by destruct p. Qed.

(** What a finished call tells about the call record, the host and the
    files. *)
Ltac post_of P :=
  lazymatch type of P with
  | run_post ?c ?w ?r ?w' =>
      let Hc := fresh "Hc" in
      pose proof (rp_calls _ _ _ _ P) as Hc; cbn in Hc;
      let Hh := fresh "Hh" in
      pose proof (rp_host _ _ _ _ P) as Hh;
      first
        [ let Hf := fresh "Hf" in
          assert (Hf : files w' = files w)
            by (apply (rp_files _ _ _ _ P); vm_compute; reflexivity);
          cbn in Hf
        | let Hcp := fresh "Hcp" in
          pose proof (rp_cp _ _ _ _ P _ _ eq_refl) as Hcp; cbn in Hcp;
          let Hok := fresh "Hcpok" in
          pose proof (fun x => rp_cp_ok _ _ _ _ P _ _ x eq_refl) as Hok;
          cbn in Hok ];
      clear P
  end.

Ltac wp_run :=
  lazymatch goal with
  | |- wp (run_command _) _ _ =>
      let r := fresh "ok" in let o := fresh "out" in
      let w := fresh "w" in let P := fresh "P" in
      apply wp_run_command; intros [r o] w P; post_of P; cbn beta iota
  end.

Ltac wp_go :=
  repeat first
    [ wp_run
    | wp_step
    | progress cbn [negb andb orb]
    | lazymatch goal with
      | |- wp (write_file _ _) _ _ =>
          apply wp_write_file; [intros ? ?|intros ?]; cbn beta iota
      | |- wp (if ?b then _ else _) _ _ =>
          lazymatch b with
          | negb ?x => first [is_var x; destruct x | destruct x eqn:?]
          | _ => first [is_var b; destruct b | destruct b eqn:?]
          end; cbn [negb]; cbn beta iota
      | |- wp (match ?b with _ => _ end) _ _ => destruct b eqn:?; cbn beta iota
      end ].

(** Membership in an explicit call record, case by case. *)
Ltac in_cases :=
  repeat match goal with
         | H : In _ [] |- _ => destruct H
         | H : In _ (_ :: _) |- _ => destruct H as [H|H]
         | H : _ \/ _ |- _ => destruct H as [H|H]
         | H : (_, _) = (_, _) |- _ => apply pair_equal_spec in H; destruct H
         | H : @eq (list string) _ _ |- _ =>
             first [ exfalso; vm_compute in H; discriminate H | clear H ]
         | H : @eq bool ?x _ |- _ =>
             first [ discriminate H | is_var x; subst x | clear H ]
         | H : @eq string ?x _ |- _ => is_var x; subst x
         end.

(** Unfold the relations between worlds into equations on their fields and
    rewrite every field down to the initial world. *)
Ltac world_facts :=
  repeat match goal with
         | H : same_host _ _ |- _ => destruct H as (? & ? & ? & ?)
         | H : only_logs _ _ |- _ => destruct H as (? & ? & ? & ?)
         end;
  cbn [IN_DOCKER_TEST_MODE files write_fault sys_class_net host procs calls logs
       add_log add_call add_proc set_files] in *.

Ltac chain_field f :=
  repeat match goal with
         | H : f ?x = _ |- _ => is_var x; first [rewrite H in * | idtac]; clear H
         end.

Ltac chain_world :=
  world_facts;
  chain_field IN_DOCKER_TEST_MODE; chain_field write_fault;
  chain_field sys_class_net; chain_field host.



(** Find an entry in an explicit call record. *)
Ltac in_solve :=
  simpl;
  first [ left; reflexivity
        | right; in_solve ].

Ltac ex_in_solve :=
  eexists;
  first [ in_solve | left; in_solve | right; in_solve ].


(** The restore step after a backup that was taken: the copy back succeeds
    and the interface file holds what it held at the start. *)
Lemma restore_after_backup (fs fs' : gmap string content) (new x : content)
    (ok : bool) (fault : option string) :
  let written := <[interfaces_file := new]> (<[interfaces_backup := x]> fs) in
  (if ok
   then exists x0, written !! interfaces_backup = Some x0 /\ fault = None
                   /\ fs' = <[interfaces_file := x0]> written
   else fs' = written) ->
  (forall x0, written !! interfaces_backup = Some x0 -> fault = None -> ok = true) ->
  fault = None -> fs !! interfaces_file = Some x ->
  fs' !! interfaces_file = fs !! interfaces_file.
Proof.
  intros written Hcp Hok Hfault Hx.
  assert (Hl : written !! interfaces_backup = Some x).
  { unfold written. rewrite lookup_insert_ne by apply interfaces_file_ne_backup.
    apply lookup_insert_eq. }
  rewrite (Hok x Hl Hfault) in Hcp. destruct Hcp as (x0 & Hx0 & _ & ->).
  rewrite Hl in Hx0. injection Hx0 as <-. by rewrite lookup_insert_eq.
Qed.

(** C1.  For a static intent with non-empty address and gateway whose mask
    is the netmask with [p] leading one bits (0 <= p <= 32), the Netplan
    builder returns a document with one interface entry: DHCP off, the
    single address "<address>/<p>" and the single route to "default" via the
    gateway. *)
Theorem C1_netplan_static_address_and_route
    (a g : string) (dns : option string) (iface : string) (p : Z) (w : World) :
  a <> "" -> g <> "" -> iface <> "" -> 0 <= p <= 32 ->
  exists doc e w',
    _generate_netplan_yaml (Some "static") (Some a) (Some (netmask_of_prefix p))
      (Some g) dns iface w
    = (Ok doc, w')
    /\ ethernets (network doc) = {[ iface := e ]}
    /\ dhcp4 e = Some false
    /\ addresses e = Some [a +:+ "/" +:+ pretty p]
    /\ routes e = Some [ {| to_ := "default"; via := g |} ].
Proof.
  intros Ha Hg Hi Hp.
  pose proof (netmask_nonempty p Hp) as Hm.
  cut (wp (_generate_netplan_yaml (Some "static") (Some a) (Some (netmask_of_prefix p))
             (Some g) dns iface)
         (fun r w' => exists doc e, r = Ok doc
            /\ ethernets (network doc) = {[ iface := e ]}
            /\ dhcp4 e = Some false
            /\ addresses e = Some [a +:+ "/" +:+ pretty p]
            /\ routes e = Some [ {| to_ := "default"; via := g |} ]) w).
  { unfold wp. destruct (_generate_netplan_yaml _ _ _ _ _ _ w) as [r w']. simpl.
    intros (doc & e & -> & H). by exists doc, e, w'. }
  unfold _generate_netplan_yaml, all3.
  rewrite (eqb_neq_false iface "") by done.
  rewrite !truthy_Some by done.
  change (Py.eqs (Some "static") "dynamic") with false.
  change (Py.eqs (Some "static") "static") with true.
  cbn.
  wp_step. apply (wp_cidr (netmask_of_prefix p) w). intros o w1 Ho L1.
  rewrite cidr_value, (netmask_prefixlen p Hp) in Ho. injection Ho as <-.
  wp_steps. eexists _, _. split; [reflexivity|]. cbn. done.
Qed.
(** C2.  Once interface detection has given a name, the DHCP teardown
    reports success whatever the six steps return, and it runs all six in
    order: no outcome of a step stops the sequence or changes the
    response. *)
Theorem C2_dhcp_teardown_reports_success w iface :
  (_get_network_interface_name w).1 = Ok (Some iface) ->
  Py.truthy (Some iface) = true ->
  exists w' r1 r2 r3 r4 r5 r6,
    disable_dhcp w
    = (Ok (jsonify "success" "DHCP disabled successfully." 200), w')
    /\ calls w' = calls w ++
         [(["dhclient"; "-r"; iface], r1);
          (["systemctl"; "stop"; "NetworkManager"], r2);
          (["systemctl"; "disable"; "NetworkManager"], r3);
          (["systemctl"; "stop"; "isc-dhcp-client"], r4);
          (["systemctl"; "disable"; "isc-dhcp-client"], r5);
          (["pkill"; "dhclient"], r6)].
Proof.
  intros Hi Ht.
  cut (wp disable_dhcp (fun r w' => exists r1 r2 r3 r4 r5 r6,
         r = Ok (jsonify "success" "DHCP disabled successfully." 200)
         /\ calls w' = calls w ++
         [(["dhclient"; "-r"; iface], r1);
          (["systemctl"; "stop"; "NetworkManager"], r2);
          (["systemctl"; "disable"; "NetworkManager"], r3);
          (["systemctl"; "stop"; "isc-dhcp-client"], r4);
          (["systemctl"; "disable"; "isc-dhcp-client"], r5);
          (["pkill"; "dhclient"], r6)]) w).
  { unfold wp. destruct (disable_dhcp w) as [r w']. simpl.
    intros (r1&r2&r3&r4&r5&r6&->&E). by exists w', r1, r2, r3, r4, r5, r6. }
  unfold disable_dhcp.
  wp_steps.
  eapply (wp_interface_name w); [done|]. intros o w1 Ho L1.
  rewrite Hi in Ho. injection Ho as <-. rewrite Ht. cbn.
  wp_steps. calls_facts.
  eexists _, _, _, _, _, _. split; [reflexivity|]. calls_chain. reflexivity.
Qed.
(** The interface file after the restore step, when the backup was taken. *)
Ltac c3_restored :=
  cbn [fst]; intros ->;
  repeat match goal with
         | H : exists x, _ |- _ => destruct H as (? & ? & ? & ?)
         end;
  chain_field files;
  eapply restore_after_backup; eauto.

(** C3.  Legacy network apply of a valid request on a host whose interface
    file can be written.  The commands called are the backup copy, the lease
    release for a static request, the restart of the network service and,
    only when the restart failed, the interface-down command followed, when
    that succeeded, by the interface-up command.  The operation reports
    success when the restart succeeded or when down and up both succeeded.
    When the restart failed and the down or the up command failed, the
    operation reports failure with that command's diagnostic, its last
    command is the copy of the backup over the interface file, and if the
    backup step had succeeded the interface file again holds what it held
    before the operation.  The backup step succeeds when the interface file
    exists and the backup can be written. *)
Theorem C3_legacy_apply_fallback_and_rollback
    (ip_type ip_address subnet_mask gateway dns_server : option string)
    (interface_name : string) (w : World) :
  Py.eqs ip_type "dynamic" = true
  \/ (Py.eqs ip_type "static" = true
      /\ all3 ip_address subnet_mask gateway = true) ->
  write_fault w interfaces_file = None ->
  let backup := ["cp"; interfaces_file; interfaces_backup] in
  let restore := ["cp"; interfaces_backup; interfaces_file] in
  let release := ["dhclient"; "-r"; interface_name] in
  let restart := ["service"; "networking"; "restart"] in
  let ifdown := ["ifdown"; interface_name] in
  let ifup := ["ifup"; interface_name] in
  let applied := (true, "Network configuration applied successfully.") in
  let failed (output : string) :=
    (false, "Error applying network settings: Failed to apply network configuration: "
            +:+ output) in
  exists r w' (b : bool * string) first steps,
    _configure_legacy_network_ubuntu16 ip_type ip_address subnet_mask gateway
      dns_server interface_name w = (Ok r, w')
    /\ calls w' = calls w ++ (backup, b) :: first ++ steps
    /\ (exists o, first = if Py.eqs ip_type "static" then [(release, o)] else [])
    /\ (forall x, files w !! interfaces_file = Some x ->
                  write_fault w interfaces_backup = None -> b.1 = true)
    /\ ((exists o1, steps = [(restart, (true, o1))] /\ r = applied)
        \/ (exists o1 o2 o3,
              steps = [(restart, (false, o1)); (ifdown, (true, o2)); (ifup, (true, o3))]
              /\ r = applied)
        \/ (exists o1 o2 e rr,
              steps = [(restart, (false, o1)); (ifdown, (true, o2)); (ifup, (false, e));
                       (restore, rr)]
              /\ r = failed e
              /\ (b.1 = true ->
                  files w' !! interfaces_file = files w !! interfaces_file))
        \/ (exists o1 e rr,
              steps = [(restart, (false, o1)); (ifdown, (false, e)); (restore, rr)]
              /\ r = failed e
              /\ (b.1 = true ->
                  files w' !! interfaces_file = files w !! interfaces_file))).
Proof.
  intros Hvalid Hw backup restore release restart ifdown ifup applied failed.
  cut (wp (_configure_legacy_network_ubuntu16 ip_type ip_address subnet_mask gateway
      dns_server interface_name) (fun res w' => exists r (b : bool * string) first steps,
       res = Ok r
    /\ calls w' = calls w ++ (backup, b) :: first ++ steps
    /\ (exists o, first = if Py.eqs ip_type "static" then [(release, o)] else [])
    /\ (forall x, files w !! interfaces_file = Some x ->
                  write_fault w interfaces_backup = None -> b.1 = true)
    /\ ((exists o1, steps = [(restart, (true, o1))] /\ r = applied)
        \/ (exists o1 o2 o3,
              steps = [(restart, (false, o1)); (ifdown, (true, o2)); (ifup, (true, o3))]
              /\ r = applied)
        \/ (exists o1 o2 e rr,
              steps = [(restart, (false, o1)); (ifdown, (true, o2)); (ifup, (false, e));
                       (restore, rr)]
              /\ r = failed e
              /\ (b.1 = true ->
                  files w' !! interfaces_file = files w !! interfaces_file))
        \/ (exists o1 e rr,
              steps = [(restart, (false, o1)); (ifdown, (false, e)); (restore, rr)]
              /\ r = failed e
              /\ (b.1 = true ->
                  files w' !! interfaces_file = files w !! interfaces_file)))) w).
  { unfold wp. destruct (_configure_legacy_network_ubuntu16 _ _ _ _ _ _ w) as [res w'].
    simpl. intros (r & b & first & steps & -> & H). by exists r, w', b, first, steps. }
  unfold _configure_legacy_network_ubuntu16.
  destruct (Py.eqs ip_type "dynamic") eqn:Ed.
  - assert (Es : Py.eqs ip_type "static" = false).
    { apply eqs_true in Ed. subst ip_type. reflexivity. }
    rewrite Es. wp_go.
    all: chain_world; try congruence.
    all: eexists _, (_, _), [], _; (split; [reflexivity|]).
    all: (split; [calls_chain; reflexivity|]); (split; [by exists (true, "")|]).
    all: (split; [cbn [fst]; assumption|]).
    all: subst backup restore release restart ifdown ifup applied failed.
    all: first [ left; eexists; split; reflexivity
               | right; left; eexists _, _, _; split; reflexivity
               | right; right; left; eexists _, _, _, _;
                 split; [reflexivity|]; split; [reflexivity|]; c3_restored
               | right; right; right; eexists _, _, _;
                 split; [reflexivity|]; split; [reflexivity|]; c3_restored ].
  - destruct Hvalid as [?|(Es & Ea)]; [done|]. rewrite Es, Ea. cbn [negb].
    wp_go.
    all: chain_world; try congruence.
    all: eexists _, (_, _), [(_, _)], _; (split; [reflexivity|]).
    all: (split; [calls_chain; reflexivity|]); (split; [by eexists|]).
    all: (split; [cbn [fst]; assumption|]).
    all: subst backup restore release restart ifdown ifup applied failed.
    all: first [ left; eexists; split; reflexivity
               | right; left; eexists _, _, _; split; reflexivity
               | right; right; left; eexists _, _, _, _;
                 split; [reflexivity|]; split; [reflexivity|]; c3_restored
               | right; right; right; eexists _, _, _;
                 split; [reflexivity|]; split; [reflexivity|]; c3_restored ].
Qed.
(** C4, as amended.  Modern dialect: a static intent that misses address,
    mask or gateway, or whose mask fails the CIDR conversion, gets an error
    response (400 once an interface is detected) and neither a file nor the
    call record nor the process list changes.  Legacy dialect: a static
    intent that misses address, mask or gateway gets an error response; no
    backup, lease-release or apply command is called (the only command that
    can appear is the copy back of the backup) and no file other than the
    interface file changes.  The legacy dialect does not convert the mask. *)
Theorem C4_static_validation_before_effects :
  (forall (data : gmap string string) (w : World),
     data !! "ipType" = Some "static" ->
     (_get_ubuntu_version w).1 <> Ok "16.04" ->
     all3 (data !! "ipAddress") (data !! "subnetMask") (data !! "gateway") = false
     \/ (subnet_mask_to_cidr (Py.str (data !! "subnetMask")) w).1 = Ok None ->
     exists resp w' o,
       apply_network_settings data w = (Ok resp, w')
       /\ (_get_network_interface_name w).1 = Ok o
       /\ status resp = "error"
       /\ code resp = (if Py.truthy o then 400 else 500)
       /\ calls w' = calls w /\ procs w' = procs w /\ files w' = files w)
  /\ (forall (data : gmap string string) (w : World),
        data !! "ipType" = Some "static" ->
        (_get_ubuntu_version w).1 = Ok "16.04" ->
        all3 (data !! "ipAddress") (data !! "subnetMask") (data !! "gateway") = false ->
        exists resp w' new,
          apply_network_settings data w = (Ok resp, w')
          /\ status resp = "error" /\ code resp = 500
          /\ calls w' = calls w ++ new
          /\ (forall c o, In (c, o) new -> c = ["cp"; interfaces_backup; interfaces_file])
          /\ (forall p, p <> interfaces_file -> files w' !! p = files w !! p)
          /\ (files w' !! interfaces_file = files w !! interfaces_file
              \/ files w' !! interfaces_file = files w !! interfaces_backup)).
Proof.
  split.
  - intros data w Htype Hmodern Hbad.
    destruct (interface_name_post w) as (o & wi & Ei & _).
    apply (wp_intro3 (apply_network_settings data)
             (fun resp w' o => (_get_network_interface_name w).1 = Ok o
       /\ status resp = "error"
       /\ code resp = (if Py.truthy o then 400 else 500)
       /\ calls w' = calls w /\ procs w' = procs w /\ files w' = files w)).
    unfold apply_network_settings.
    rewrite (data_lookup_nonempty _ _ _ Htype), Htype.
    wp_steps. eapply (wp_interface_name w); [done|]. intros o' w1 Ho L1.
    destruct (Py.truthy o') eqn:Et; cbn [negb].
    + wp_steps. apply (wp_ubuntu_version w); [by destruct L1 as (_ & ? & _)|].
      intros v Hv. rewrite Hv in Hmodern.
      assert (Hv16 : String.eqb v "16.04" = false).
      { apply eqb_neq_false. congruence. }
      wp_steps. unfold network_configurator. rewrite Hv16.
      unfold modern_network, _generate_netplan_yaml.
      assert (Hne : String.eqb (Py.str o') "" = false).
      { destruct o' as [s|]; [|done]. simpl in *. by destruct (String.eqb s ""). }
      rewrite Hne.
      change (Py.eqs (Some "static") "dynamic") with false.
      change (Py.eqs (Some "static") "static") with true. cbn beta iota.
      destruct (all3 (data !! "ipAddress") (data !! "subnetMask") (data !! "gateway"))
        eqn:Ea; cbn [negb].
      * destruct Hbad as [?|Hc]; [done|].
        wp_steps. apply (wp_cidr _ w). intros oc w2 Hoc L2.
        rewrite Hc in Hoc. injection Hoc as <-.
        wp_steps. eexists _, o'. (split; [reflexivity|]). rewrite Et.
        destruct L1 as (_ & ? & ? & ?), L2 as (_ & ? & ? & ?).
        cbn in *. repeat split; congruence.
      * wp_steps. eexists _, o'. (split; [reflexivity|]). rewrite Et.
        destruct L1 as (_ & ? & ? & ?). cbn in *. repeat split; congruence.
    + wp_steps. eexists _, o'. (split; [reflexivity|]). rewrite Et.
      destruct L1 as (_ & ? & ? & ?). cbn in *. repeat split; congruence.
  - intros data w Htype Hlegacy Hbad.
    apply (wp_intro3 (apply_network_settings data)
             (fun resp w' new => status resp = "error" /\ code resp = 500
          /\ calls w' = calls w ++ new
          /\ (forall c o, In (c, o) new -> c = ["cp"; interfaces_backup; interfaces_file])
          /\ (forall p, p <> interfaces_file -> files w' !! p = files w !! p)
          /\ (files w' !! interfaces_file = files w !! interfaces_file
              \/ files w' !! interfaces_file = files w !! interfaces_backup))).
    unfold apply_network_settings.
    rewrite (data_lookup_nonempty _ _ _ Htype), Htype.
    wp_steps. eapply (wp_interface_name w); [done|]. intros o' w1 Ho L1.
    destruct (Py.truthy o') eqn:Et; cbn [negb].
    + wp_steps. apply (wp_ubuntu_version w); [by destruct L1 as (_ & ? & _)|].
      intros v Hv. rewrite Hv in Hlegacy. injection Hlegacy as ->.
      wp_steps. unfold network_configurator.
      change (String.eqb "16.04" "16.04") with true. cbn beta iota.
      unfold _configure_legacy_network_ubuntu16.
      change (Py.eqs (Some "static") "dynamic") with false.
      change (Py.eqs (Some "static") "static") with true. cbn beta iota.
      rewrite Hbad. cbn [negb].
      wp_go.
      all: eexists _, [(["cp"; interfaces_backup; interfaces_file], (ok, out))].
      all: (split; [reflexivity|]).
      destruct L1 as (_ & Hf1 & _ & Hc1); cbn in Hf1, Hc1.
      rewrite Hf1 in Hcp. cbn. rewrite Hc, Hc1.
      split; [done|]. split; [done|]. split; [done|].
      split. { intros c o [[= <- _]|[]]. done. }
      destruct ok.
      * destruct Hcp as (x & Hx & _ & ->). split.
        -- intros p Hp. by rewrite lookup_insert_ne.
        -- right. by rewrite lookup_insert_eq.
      * rewrite Hcp. split; [done|]. by left.
    + wp_steps. eexists _, []. (split; [reflexivity|]).
      destruct L1 as (_ & Hf1 & _ & Hc1); cbn in Hf1, Hc1.
      cbn. rewrite app_nil_r, Hf1. repeat split; try done. by left.
Qed.
(** C5, as amended.  Legacy time configuration.  NTP mode (the daemon
    configuration being writable): the operation succeeds exactly when the
    daemon start step succeeds and fails exactly when it fails, so the
    outcomes of the package steps, of the daemon stop step and of the forced
    synchronisation do not change the result.  Manual mode with a valid date
    and time: the operation succeeds exactly when the date-setting command
    succeeds and fails exactly when it fails, so the outcomes of the daemon
    stop step and of the hardware-clock step do not change the result. *)
Theorem C5_legacy_time_fatal_steps :
  (forall (ntp_server manual_date manual_time : option string) (w : World),
     write_fault w NTP_CONF = None ->
     exists r w' new,
       _configure_legacy_time_ubuntu16 (Some "ntp") ntp_server manual_date
         manual_time w = (Ok r, w')
       /\ calls w' = calls w ++ new
       /\ (r.1 = true <->
           exists o, In (["systemctl"; "start"; "ntp"], (true, o)) new
                     \/ In (["service"; "ntp"; "start"], (true, o)) new)
       /\ (r.1 = false <->
           exists o, In (["systemctl"; "start"; "ntp"], (false, o)) new
                     \/ In (["service"; "ntp"; "start"], (false, o)) new))
  /\ (forall (ntp_server : option string) (date time : string) (w : World),
        date <> "" -> time <> "" ->
        Strptime.strptime (date +:+ " " +:+ time) <> None ->
        let set_date := ["date"; "-s"; date +:+ " " +:+ time +:+ ":00"] in
        exists r w' new,
          _configure_legacy_time_ubuntu16 (Some "manual") ntp_server (Some date)
            (Some time) w = (Ok r, w')
          /\ calls w' = calls w ++ new
          /\ (r.1 = true <-> exists o, In (set_date, (true, o)) new)
          /\ (r.1 = false <-> exists o, In (set_date, (false, o)) new)).
Proof.
  split.
  - intros ntp_server manual_date manual_time w Hw.
    apply (wp_intro3 (_configure_legacy_time_ubuntu16 _ _ _ _)
             (fun r w' new => calls w' = calls w ++ new
       /\ (r.1 = true <->
           exists o, In (["systemctl"; "start"; "ntp"], (true, o)) new
                     \/ In (["service"; "ntp"; "start"], (true, o)) new)
       /\ (r.1 = false <->
           exists o, In (["systemctl"; "start"; "ntp"], (false, o)) new
                     \/ In (["service"; "ntp"; "start"], (false, o)) new))).
    unfold _configure_legacy_time_ubuntu16, ntp_service.
    change (Py.eqs (Some "ntp") "ntp") with true. cbn beta iota.
    wp_go.
    all: chain_world.
    all: try congruence.
    all: eexists _, _; (split; [reflexivity|]).
    all: (split; [calls_chain; reflexivity|]).
    all: cbn [fst].
    all: split; (split; [intros ?; first [done | ex_in_solve] | intros (? & ?); in_cases; done]).
  - intros ntp_server date time w Hd Ht Hparse set_date.
    apply (wp_intro3 (_configure_legacy_time_ubuntu16 _ _ _ _)
             (fun r w' new => calls w' = calls w ++ new
          /\ (r.1 = true <-> exists o, In (set_date, (true, o)) new)
          /\ (r.1 = false <-> exists o, In (set_date, (false, o)) new))).
    unfold _configure_legacy_time_ubuntu16, ntp_service.
    change (Py.eqs (Some "manual") "ntp") with false.
    change (Py.eqs (Some "manual") "manual") with true.
    rewrite !truthy_Some by done. cbn [Py.str negb andb].
    destruct (Strptime.strptime (date +:+ " " +:+ time)) as [ymd|]; [|done].
    wp_go.
    all: eexists _, _; (split; [reflexivity|]).
    all: (split; [calls_chain; reflexivity|]).
    all: cbn [fst]; subst set_date.
    all: split; (split; [intros ?; first [done | ex_in_solve] | intros (? & ?); in_cases; done]).
Qed.
(** C6.  A manual time request whose date and time are present, written
    in ASCII, and do not parse as "%Y-%m-%d %H:%M" is answered with the format error (status 400
    on a modern release; on a 16.04 release the legacy configurator's message
    with status 500) and no command is called, no process started and no file
    changed. *)
Theorem C6_invalid_manual_time_rejected
    (data : gmap string string) (date time : string) (w : World) :
  data !! "timeType" = Some "manual" ->
  data !! "manualDate" = Some date ->
  data !! "manualTime" = Some time ->
  date <> "" -> time <> "" ->
  Py.isascii date = true -> Py.isascii time = true ->
  Strptime.strptime (date +:+ " " +:+ time) = None ->
  exists v w',
    _get_ubuntu_version w = (Ok v, w)
    /\ apply_time_settings data w
       = (Ok (if String.eqb v "16.04"
              then jsonify "error"
                     "Error applying time settings: Invalid date or time format. Use YYYY-MM-DD and HH:MM."
                     500
              else jsonify "error"
                     "Invalid date or time format. Use YYYY-MM-DD and HH:MM." 400),
          w')
    /\ calls w' = calls w /\ procs w' = procs w /\ files w' = files w.
Proof.
  intros Htype Hdate Htime Hd Ht _ _ Hparse.
  destruct (ubuntu_version_post w) as (v & Ev). exists v.
  cut (wp (apply_time_settings data) (fun r w' =>
         r = Ok (if String.eqb v "16.04"
              then jsonify "error"
                     "Error applying time settings: Invalid date or time format. Use YYYY-MM-DD and HH:MM."
                     500
              else jsonify "error"
                     "Invalid date or time format. Use YYYY-MM-DD and HH:MM." 400)
         /\ calls w' = calls w /\ procs w' = procs w /\ files w' = files w) w).
  { unfold wp. destruct (apply_time_settings data w) as [r w']. simpl.
    intros (-> & H). by exists w'. }
  unfold apply_time_settings.
  rewrite (data_lookup_nonempty _ _ _ Htype), Htype, Hdate, Htime.
  wp_steps. apply (wp_ubuntu_version w); [done|]. intros v' Hv'.
  rewrite Ev in Hv'. injection Hv' as <-.
  wp_steps. unfold time_configurator.
  destruct (String.eqb v "16.04").
  - unfold legacy_time, _configure_legacy_time_ubuntu16.
    change (Py.eqs (Some "manual") "ntp") with false.
    change (Py.eqs (Some "manual") "manual") with true.
    rewrite !truthy_Some by done. cbn [Py.str negb andb]. rewrite Hparse.
    wp_steps. done.
  - unfold modern_time.
    change (Py.eqs (Some "manual") "ntp") with false.
    change (Py.eqs (Some "manual") "manual") with true.
    rewrite !truthy_Some by done. cbn [Py.str negb andb]. rewrite Hparse.
    wp_steps. done.
Qed.

(** C7.  The release text selects the legacy configurators exactly when it
    can be read and contains the marker VERSION_ID="16.04"; when the text
    cannot be read, and when it does not contain the marker, the Netplan and
    timedatectl configurators are selected. *)
Theorem C7_dialect_selection (w : World) :
  let marker := "VERSION_ID=" +:+ Py.dq +:+ "16.04" +:+ Py.dq in
  let legacy := exists content a b,
      files w !! OS_RELEASE = Some (Text content) /\ content = a +:+ marker +:+ b in
  exists v,
    _get_ubuntu_version w = (Ok v, w)
    /\ (legacy ->
        network_configurator v = _configure_legacy_network_ubuntu16
        /\ time_configurator v = legacy_time)
    /\ ((forall content, files w !! OS_RELEASE <> Some (Text content)) ->
        network_configurator v = modern_network /\ time_configurator v = modern_time)
    /\ (~ legacy ->
        network_configurator v = modern_network /\ time_configurator v = modern_time).
Proof.
  intros marker legacy.
  destruct (ubuntu_version_post w) as (v & Ev). exists v. split; [done|].
  assert (Hv : v = "16.04" <-> legacy).
  { pose proof (ubuntu_version_16 w) as H. rewrite Ev in H. simpl in H.
    unfold legacy, marker. split.
    - intros ->. destruct H as [H _]. destruct (H eq_refl) as (c & Hc & Hin).
      apply contains_spec in Hin as (a & b & Hab). eauto.
    - intros (c & a & b & Hc & Hab). destruct H as [_ H].
      assert (Ok v = Ok "16.04") as [= ->]; [|done].
      apply H. exists c. split; [done|]. apply contains_spec. eauto. }
  assert (Hm : v <> "16.04" ->
          network_configurator v = modern_network /\ time_configurator v = modern_time).
  { intros Hne. unfold network_configurator, time_configurator.
    by rewrite (eqb_neq_false v "16.04"). }
  split; [|split].
  - intros ->%Hv. done.
  - intros Hno. apply Hm. intros (c & a & b & Hc & _)%Hv. by apply (Hno c).
  - intros Hno. apply Hm. by intros ?%Hv.
Qed.
(** C8.  In mock mode a command whose name is on the allow-list returns
    success without a process being started or a file changed, and its
    message is the generic mock text unless it is a dhclient call with "-r";
    the lease release returns "Mocked: DHCP release successful.", which is
    not the generic text; a command whose name is not on the list (the
    privilege prefix apart) is started as a real process. *)
Theorem C8_mock_mode_executor (w : World) :
  IN_DOCKER_TEST_MODE w = true ->
  (forall name args, In name mocked_commands ->
     exists w',
       run_command (name :: args) w
       = (Ok (true,
              if String.eqb name "dhclient" && list_contains "-r" (name :: args)
              then "Mocked: DHCP release successful."
              else "Mocked: " +:+ Py.join " " (name :: args)
                   +:+ " - This command would normally run on a full Ubuntu OS."),
          w')
       /\ procs w' = procs w /\ files w' = files w)
  /\ (forall iface,
        (run_command ["dhclient"; "-r"; iface] w).1
        = Ok (true, "Mocked: DHCP release successful.")
        /\ "Mocked: DHCP release successful."
           <> "Mocked: " +:+ Py.join " " ["dhclient"; "-r"; iface]
              +:+ " - This command would normally run on a full Ubuntu OS.")
  /\ (forall name args, ~ In name mocked_commands -> name <> "sudo" ->
        procs (run_command (name :: args) w).2 = procs w ++ [name :: args]).
Proof.
  intros Hm. split; [|split].
  - intros name args Hin.
    unfold run_command, run_command_body.
    unfold mbind, M_bind, mret, M_ret, logger, modify, gets, when. cbn.
    rewrite (mocked_not_sudo name Hin). cbn. rewrite Hm. cbn.
    rewrite (proj2 (list_contains_In _ _) Hin). cbn.
    destruct (String.eqb name "dhclient" && list_contains "-r" (name :: args));
      cbn; eexists; done.
  - intros iface. split.
    + unfold run_command, run_command_body.
      unfold mbind, M_bind, mret, M_ret, logger, modify, gets, when. cbn.
      change (String.eqb "dhclient" "sudo") with false. cbn. rewrite Hm. cbn.
      change (list_contains "dhclient" mocked_commands) with true.
      change (String.eqb "dhclient" "dhclient") with true.
      replace (list_contains "-r" ["dhclient"; "-r"; iface]) with true; [done|].
      symmetry. apply list_contains_In. simpl. auto.
    + apply release_message_not_generic.
  - intros name args Hn Hs.
    destruct (run_command_post (name :: args) w) as (r & w' & E & P).
    rewrite E. simpl. 
    assert (Es : strip_sudo (name :: args) = name :: args).
    { unfold strip_sudo. by rewrite eqb_neq_false. }
    pose proof (rp_real _ _ _ _ P) as Hr. rewrite Es in Hr. apply Hr; [|done].
    unfold is_mocked. cbn.
    rewrite (proj2 (list_contains_not_In _ _) Hn). apply andb_false_r.
Qed.

(** C10.  Manual time on a modern release, for a valid date and time.  The
    first command is the one that disables NTP synchronisation; the set-time
    command is called only after it has succeeded.  When the set-time command
    fails the response is status 500 with "Failed to set manual time: ..."
    and set-time is the last command called: nothing re-enables the
    synchronisation. *)
Theorem C10_manual_time_not_atomic
    (data : gmap string string) (date time : string) (w : World) :
  data !! "timeType" = Some "manual" ->
  data !! "manualDate" = Some date ->
  data !! "manualTime" = Some time ->
  date <> "" -> time <> "" ->
  Strptime.strptime (date +:+ " " +:+ time) <> None ->
  (_get_ubuntu_version w).1 <> Ok "16.04" ->
  let disable := ["timedatectl"; "set-ntp"; "false"] in
  let set_time := ["timedatectl"; "set-time"; date +:+ " " +:+ time +:+ ":00"] in
  exists resp w' new,
    apply_time_settings data w = (Ok resp, w')
    /\ calls w' = calls w ++ new
    /\ ((exists e, new = [(disable, (false, e))]
                   /\ resp = jsonify "error" ("Failed to disable NTP: " +:+ e) 500)
        \/ (exists o o', new = [(disable, (true, o)); (set_time, (true, o'))]
                         /\ resp = jsonify "success" "Manual time set successfully." 200)
        \/ (exists o e, new = [(disable, (true, o)); (set_time, (false, e))]
                        /\ resp = jsonify "error"
                                    ("Failed to set manual time: " +:+ e) 500)).
Proof.
  intros Htype Hdate Htime Hd Ht Hparse Hmodern disable set_time.
  cut (wp (apply_time_settings data) (fun r w' => exists resp new,
         r = Ok resp
    /\ calls w' = calls w ++ new
    /\ ((exists e, new = [(disable, (false, e))]
                   /\ resp = jsonify "error" ("Failed to disable NTP: " +:+ e) 500)
        \/ (exists o o', new = [(disable, (true, o)); (set_time, (true, o'))]
                         /\ resp = jsonify "success" "Manual time set successfully." 200)
        \/ (exists o e, new = [(disable, (true, o)); (set_time, (false, e))]
                        /\ resp = jsonify "error"
                                    ("Failed to set manual time: " +:+ e) 500))) w).
  { unfold wp. destruct (apply_time_settings data w) as [r w']. simpl.
    intros (resp & new & -> & H). by exists resp, w', new. }
  unfold apply_time_settings.
  rewrite (data_lookup_nonempty _ _ _ Htype), Htype, Hdate, Htime.
  wp_steps. apply (wp_ubuntu_version w); [done|]. intros v Hv.
  rewrite Hv in Hmodern.
  assert (Hv16 : String.eqb v "16.04" = false).
  { apply eqb_neq_false. congruence. }
  wp_steps. unfold time_configurator. rewrite Hv16.
  unfold modern_time.
  change (Py.eqs (Some "manual") "ntp") with false.
  change (Py.eqs (Some "manual") "manual") with true.
  rewrite !truthy_Some by done. cbn [Py.str negb andb].
  destruct (Strptime.strptime (date +:+ " " +:+ time)) as [ymd|]; [|done].
  wp_go.
  all: eexists _, _; (split; [reflexivity|]).
  all: (split; [calls_chain; reflexivity|]).
  - right. left. by eexists _, _.
  - right. right. by eexists _, _.
  - left. by eexists.
Qed.

(** * The claims on concrete hosts *)

(** The request of the design document on a modern host: the address list
    is exactly ["192.168.1.50/24"] and the default route goes through
    192.168.1.1. *)
Lemma C1_witness :
  exists doc e w',
    _generate_netplan_yaml (Some "static") (Some "192.168.1.50")
      (Some "255.255.255.0") (Some "192.168.1.1") None "eth0"
      (sample_host false modern_files host_ok)
    = (Ok doc, w')
    /\ ethernets (network doc) = {[ "eth0" := e ]}
    /\ dhcp4 e = Some false
    /\ addresses e = Some ["192.168.1.50/24"]
    /\ routes e = Some [ {| to_ := "default"; via := "192.168.1.1" |} ].
Proof.
  assert (Em : netmask_of_prefix 24 = "255.255.255.0") by (vm_compute; reflexivity).
  rewrite <- Em.
  destruct (C1_netplan_static_address_and_route
              "192.168.1.50" "192.168.1.1" None "eth0" 24
              (sample_host false modern_files host_ok))
    as (doc & e & w' & E & He & Hd & Ha & Hr);
    [discriminate | discriminate | discriminate | lia |].
  exists doc, e, w'. vm_compute in Ha.
  repeat split; assumption.
Defined.

(** Every step of the teardown fails on this host; the teardown reports
    success. *)
Lemma C2_witness :
  exists w' r1 r2 r3 r4 r5 r6,
    disable_dhcp (sample_host false modern_files host_failing)
    = (Ok (jsonify "success" "DHCP disabled successfully." 200), w')
    /\ calls w' = calls (sample_host false modern_files host_failing) ++
         [(["dhclient"; "-r"; "eth0"], r1);
          (["systemctl"; "stop"; "NetworkManager"], r2);
          (["systemctl"; "disable"; "NetworkManager"], r3);
          (["systemctl"; "stop"; "isc-dhcp-client"], r4);
          (["systemctl"; "disable"; "isc-dhcp-client"], r5);
          (["pkill"; "dhclient"], r6)].
Proof.
  apply (C2_dhcp_teardown_reports_success
           (sample_host false modern_files host_failing) "eth0");
    vm_compute; reflexivity.
Defined.

Example teardown_all_steps_fail :
  map (fun c => c.2.1) (calls (disable_dhcp (sample_host false modern_files host_failing)).2)
  = [false; false; false; false; false; false].
Proof. vm_compute. reflexivity. Qed.

(** On a 16.04 host where the restart and the interface-up command fail,
    the static request is reported as failed and the interface file holds
    its original text again. *)
Lemma C3_witness :
  let w := sample_host false legacy_files
             (host_failing_cmds ["service"; "networking"; "restart"] ["ifup"; "eth0"]) in
  exists r w',
    _configure_legacy_network_ubuntu16 (Some "static") (Some "192.168.1.50")
      (Some "255.255.255.0") (Some "192.168.1.1") None "eth0" w = (Ok r, w')
    /\ r.1 = false
    /\ files w' !! interfaces_file = Some (Text "original").
Proof.
  intros w.
  destruct (C3_legacy_apply_fallback_and_rollback (Some "static")
              (Some "192.168.1.50") (Some "255.255.255.0") (Some "192.168.1.1")
              None "eth0" w)
    as (r & w' & b & first & steps & E & Hc & (o & Hf) & Hb & Hcases);
    [right; split; vm_compute; reflexivity | reflexivity |].
  exists r, w'. split; [exact E|].
  pose proof (f_equal snd E) as Ew. simpl in Ew. subst w'.
  change (Py.eqs (Some "static") "static") with true in Hf. subst first.
  specialize (Hb (Text "original") eq_refl eq_refl).
  vm_compute in Hc. injection Hc as _ _ Hs. subst steps.
  destruct Hcases as [(o1 & Hs & _)|[(o1 & o2 & o3 & Hs & _)
                     |[(o1 & o2 & e & rr & Hs & Hr & Hres)|(o1 & e & rr & Hs & _)]]];
    try (exfalso; vm_compute in Hs; discriminate Hs).
  split; [by rewrite Hr|].
  rewrite (Hres Hb). vm_compute. reflexivity.
Defined.

(** A 16.04 host on which the backup cannot be written: the backup step
    fails unnoticed, both apply paths fail, the copy back finds no backup,
    and the interface file keeps the new configuration although the
    operation reports failure. *)
Lemma C3_counterexample :
  let w := set_write_fault interfaces_backup "Permission denied"
             (sample_host false legacy_files
                (host_failing_cmds ["service"; "networking"; "restart"]
                   ["ifdown"; "eth0"])) in
  let r := _configure_legacy_network_ubuntu16 (Some "static") (Some "192.168.1.50")
             (Some "255.255.255.0") (Some "192.168.1.1") None "eth0" w in
  r.1 = Ok (false,
            "Error applying network settings: Failed to apply network configuration: Command execution failed: failed")
  /\ map (fun c => (c.1, c.2.1)) (calls r.2)
     = [(["cp"; interfaces_file; interfaces_backup], false);
        (["dhclient"; "-r"; "eth0"], true);
        (["service"; "networking"; "restart"], false);
        (["ifdown"; "eth0"], false);
        (["cp"; interfaces_backup; interfaces_file], false)]
  /\ files w !! interfaces_file = Some (Text "original")
  /\ files r.2 !! interfaces_file
     = Some (Text (legacy_static_config "eth0" "192.168.1.50" "255.255.255.0"
                     "192.168.1.1" "    dns-nameservers 8.8.8.8"))
  /\ files r.2 !! interfaces_file <> files w !! interfaces_file.
Proof. vm_compute. repeat split; discriminate. Qed.

Example legacy_fallback_succeeds :
  let w := sample_host false legacy_files
             (host_failing_cmds ["service"; "networking"; "restart"] []) in
  let r := _configure_legacy_network_ubuntu16 (Some "dynamic") None None None None
             "eth0" w in
  r.1 = Ok (true, "Network configuration applied successfully.")
  /\ map fst (calls r.2)
     = [["cp"; interfaces_file; interfaces_backup];
        ["service"; "networking"; "restart"]; ["ifdown"; "eth0"]; ["ifup"; "eth0"]]
  /\ map (fun c => c.2.1) (calls r.2) = [true; false; true; true].
Proof. vm_compute. auto. Qed.

(** A static request whose mask has no prefix length, on a 16.04 host: the
    conversion fails, yet the legacy configurator backs up, writes the mask
    as it is, calls its commands and reports success. *)
Lemma C4_counterexample :
  let w := sample_host false legacy_files host_ok in
  let data := <["subnetMask" := "255.0.255.0"]> static_request in
  let r := apply_network_settings data w in
  (subnet_mask_to_cidr "255.0.255.0" w).1 = Ok None
  /\ r.1 = Ok (jsonify "success" "Network configuration applied successfully." 200)
  /\ map fst (calls r.2)
     = [["cp"; interfaces_file; interfaces_backup]; ["dhclient"; "-r"; "eth0"];
        ["service"; "networking"; "restart"]]
  /\ files r.2 !! interfaces_file
     = Some (Text (legacy_static_config "eth0" "192.168.1.50" "255.0.255.0"
                     "192.168.1.1" "    dns-nameservers 8.8.8.8")).
Proof. vm_compute. auto. Qed.

(** The same request without a gateway: rejected untouched on a modern
    host, rejected with at most the copy back of the backup on a 16.04
    host. *)
Lemma C4_witness :
  let data := delete "gateway" static_request in
  let wm := sample_host false modern_files host_ok in
  let wl := sample_host false legacy_files host_ok in
  (exists resp w' o,
     apply_network_settings data wm = (Ok resp, w')
     /\ (_get_network_interface_name wm).1 = Ok o
     /\ status resp = "error"
     /\ code resp = (if Py.truthy o then 400 else 500)
     /\ calls w' = calls wm /\ procs w' = procs wm /\ files w' = files wm)
  /\ (exists resp w' new,
        apply_network_settings data wl = (Ok resp, w')
        /\ status resp = "error" /\ code resp = 500
        /\ calls w' = calls wl ++ new
        /\ (forall c o, In (c, o) new -> c = ["cp"; interfaces_backup; interfaces_file])
        /\ (forall p, p <> interfaces_file -> files w' !! p = files wl !! p)
        /\ (files w' !! interfaces_file = files wl !! interfaces_file
            \/ files w' !! interfaces_file = files wl !! interfaces_backup)).
Proof.
  intros data wm wl. split.
  - apply (proj1 C4_static_validation_before_effects data wm).
    + vm_compute. reflexivity.
    + vm_compute. discriminate.
    + left. vm_compute. reflexivity.
  - apply (proj2 C4_static_validation_before_effects data wl).
    + vm_compute. reflexivity.
    + vm_compute. reflexivity.
    + vm_compute. reflexivity.
Defined.

(** What the legacy rejection does when an older backup lies next to the
    interface file: the copy back replaces the live file with it. *)
Example legacy_rejection_copies_old_backup :
  let w := sample_host false
             (<[interfaces_backup := Text "older"]> legacy_files) host_ok in
  let r := apply_network_settings (delete "gateway" static_request) w in
  r.1 = Ok (jsonify "error"
              "Error applying network settings: For static IP, ipAddress, subnetMask, and gateway are required."
              500)
  /\ calls r.2 = [(["cp"; interfaces_backup; interfaces_file], (true, ""))]
  /\ files w !! interfaces_file = Some (Text "original")
  /\ files r.2 !! interfaces_file = Some (Text "older").
Proof. vm_compute. auto. Qed.

(** NTP request on a 16.04 host where the daemon stop step fails: the stop
    step is recorded as failed and the operation reports success. *)
Lemma C5_counterexample :
  let w := sample_host false legacy_files
             (host_failing_cmds ["systemctl"; "stop"; "ntp"] ["service"; "ntp"; "stop"]) in
  let r := apply_time_settings {[ "timeType" := "ntp" ]} w in
  r.1 = Ok (jsonify "success" "NTP synchronization enabled successfully." 200)
  /\ In (["systemctl"; "stop"; "ntp"], (false, "Command execution failed: failed"))
        (calls r.2).
Proof. vm_compute. auto 10. Qed.

(** The same host, through the configurator: the start step succeeded, so
    the result is success. *)
Lemma C5_witness :
  let w := sample_host false legacy_files
             (host_failing_cmds ["systemctl"; "stop"; "ntp"] ["service"; "ntp"; "stop"]) in
  exists r w',
    _configure_legacy_time_ubuntu16 (Some "ntp") None None None w = (Ok r, w')
    /\ r.1 = true.
Proof.
  intros w.
  destruct (proj1 C5_legacy_time_fatal_steps None None None w)
    as (r & w' & new & E & Hc & Hok & _); [vm_compute; reflexivity|].
  exists r, w'. split; [exact E|].
  pose proof (f_equal snd E) as Ew. simpl in Ew. subst w'.
  vm_compute in Hc. subst new.
  apply Hok. exists "". left. simpl. auto 10.
Defined.

Example legacy_manual_date_failure_is_fatal :
  let w := sample_host false legacy_files (host_failing_on "date") in
  let r := _configure_legacy_time_ubuntu16 (Some "manual") None (Some "2024-06-01")
             (Some "10:00") w in
  r.1 = Ok (false,
            "Error applying time settings: Failed to set manual time: Command execution failed: failed")
  /\ map fst (calls r.2)
     = [["which"; "systemctl"]; ["systemctl"; "stop"; "ntp"];
        ["date"; "-s"; "2024-06-01 10:00:00"]].
Proof. vm_compute. auto. Qed.

(** The pair of the design document, with its invalid month, on a modern
    host. *)
Lemma C6_witness :
  let w := sample_host false modern_files host_ok in
  exists v w',
    _get_ubuntu_version w = (Ok v, w)
    /\ apply_time_settings (manual_request "2024-13-01" "10:00") w
       = (Ok (if String.eqb v "16.04"
              then jsonify "error"
                     "Error applying time settings: Invalid date or time format. Use YYYY-MM-DD and HH:MM."
                     500
              else jsonify "error"
                     "Invalid date or time format. Use YYYY-MM-DD and HH:MM." 400),
          w')
    /\ calls w' = calls w /\ procs w' = procs w /\ files w' = files w.
Proof.
  intros w.
  apply (C6_invalid_manual_time_rejected (manual_request "2024-13-01" "10:00")
           "2024-13-01" "10:00" w).
  - vm_compute. reflexivity.
  - vm_compute. reflexivity.
  - vm_compute. reflexivity.
  - discriminate.
  - discriminate.
  - vm_compute. reflexivity.
  - vm_compute. reflexivity.
  - vm_compute. reflexivity.
Defined.

Example invalid_month_modern :
  let r := apply_time_settings (manual_request "2024-13-01" "10:00")
             (sample_host false modern_files host_failing) in
  r.1 = Ok (jsonify "error" "Invalid date or time format. Use YYYY-MM-DD and HH:MM." 400)
  /\ calls r.2 = [] /\ procs r.2 = [].
Proof. vm_compute. auto. Qed.

Example invalid_month_legacy :
  let r := apply_time_settings (manual_request "2024-13-01" "10:00")
             (sample_host false legacy_files host_failing) in
  r.1 = Ok (jsonify "error"
              "Error applying time settings: Invalid date or time format. Use YYYY-MM-DD and HH:MM."
              500)
  /\ calls r.2 = [] /\ procs r.2 = [].
Proof. vm_compute. auto. Qed.

(** A 16.04 release text selects the legacy configurators; a host whose
    release text cannot be read and an 18.04 host get the modern ones. *)
Lemma C7_witness :
  (exists v, _get_ubuntu_version (sample_host false legacy_files host_ok)
             = (Ok v, sample_host false legacy_files host_ok)
             /\ network_configurator v = _configure_legacy_network_ubuntu16
             /\ time_configurator v = legacy_time)
  /\ (exists v, _get_ubuntu_version (sample_host false ∅ host_ok)
                = (Ok v, sample_host false ∅ host_ok)
                /\ network_configurator v = modern_network
                /\ time_configurator v = modern_time)
  /\ (exists v,
        _get_ubuntu_version
          (sample_host false {[ OS_RELEASE := Text (release_text "18.04") ]} host_ok)
        = (Ok v, sample_host false {[ OS_RELEASE := Text (release_text "18.04") ]} host_ok)
        /\ network_configurator v = modern_network
        /\ time_configurator v = modern_time).
Proof.
  split; [|split].
  - destruct (C7_dialect_selection (sample_host false legacy_files host_ok))
      as (v & E & Hl & _). exists v. split; [exact E|]. apply Hl.
    exists (release_text "16.04"),
      ("NAME=" +:+ Py.dq +:+ "Ubuntu" +:+ Py.dq +:+ Py.nl), Py.nl.
    split; vm_compute; reflexivity.
  - destruct (C7_dialect_selection (sample_host false ∅ host_ok))
      as (v & E & _ & Hu & _). exists v. split; [exact E|]. apply Hu.
    intros content H. vm_compute in H. discriminate H.
  - destruct (C7_dialect_selection
                (sample_host false {[ OS_RELEASE := Text (release_text "18.04") ]} host_ok))
      as (v & E & _ & _ & Hn). exists v. split; [exact E|]. apply Hn.
    intros (content & a & b & Hf & Hc).
    assert (Hin : Py.contains ("VERSION_ID=" +:+ Py.dq +:+ "16.04" +:+ Py.dq) content
                  = true) by (apply contains_spec; eauto).
    vm_compute in Hf. injection Hf as <-. vm_compute in Hin. discriminate Hin.
Defined.

(** Mock mode on the sample host. *)
Lemma C8_witness :
  let w := sample_host true modern_files host_failing in
  (run_command ["dhclient"; "-r"; "eth0"] w).1
  = Ok (true, "Mocked: DHCP release successful.")
  /\ procs (run_command ["cp"; "a"; "b"] w).2 = procs w ++ [["cp"; "a"; "b"]].
Proof.
  intros w.
  destruct (C8_mock_mode_executor w) as (_ & Hrel & Hreal); [reflexivity|].
  split.
  - apply Hrel.
  - apply Hreal; [|discriminate]. vm_compute. intuition discriminate.
Defined.

Example mock_generic_text :
  (run_command ["netplan"; "apply"] (sample_host true modern_files host_failing)).1
  = Ok (true,
        "Mocked: netplan apply - This command would normally run on a full Ubuntu OS.").
Proof. vm_compute. reflexivity. Qed.


Example wired_adapter_preferred :
  (_get_network_interface_name (sample_host false modern_files host_ok)).1
  = Ok (Some "eth0")
  /\ (_get_network_interface_name
        (set_adapters (Some [("lo", true); ("wlan0", true)])
           (sample_host false modern_files host_ok))).1 = Ok (Some "lo")
  /\ (_get_network_interface_name
        (set_adapters None (sample_host false modern_files host_ok))).1 = Ok None.
Proof. vm_compute. auto. Qed.

(** A modern host on which the set-time command fails. *)
Lemma C10_witness :
  let w := sample_host false modern_files
             (host_failing_cmds ["timedatectl"; "set-time"; "2024-06-01 10:00:00"] []) in
  let disable := ["timedatectl"; "set-ntp"; "false"] in
  let set_time := ["timedatectl"; "set-time"; "2024-06-01" +:+ " " +:+ "10:00" +:+ ":00"] in
  exists resp w' new,
    apply_time_settings (manual_request "2024-06-01" "10:00") w = (Ok resp, w')
    /\ calls w' = calls w ++ new
    /\ ((exists e, new = [(disable, (false, e))]
                   /\ resp = jsonify "error" ("Failed to disable NTP: " +:+ e) 500)
        \/ (exists o o', new = [(disable, (true, o)); (set_time, (true, o'))]
                         /\ resp = jsonify "success" "Manual time set successfully." 200)
        \/ (exists o e, new = [(disable, (true, o)); (set_time, (false, e))]
                        /\ resp = jsonify "error"
                                    ("Failed to set manual time: " +:+ e) 500)).
Proof.
  intros w.
  apply (C10_manual_time_not_atomic (manual_request "2024-06-01" "10:00")
           "2024-06-01" "10:00" w).
  - vm_compute. reflexivity.
  - vm_compute. reflexivity.
  - vm_compute. reflexivity.
  - discriminate.
  - discriminate.
  - vm_compute. discriminate.
  - vm_compute. discriminate.
Defined.

Example failed_set_time_leaves_ntp_disabled :
  let w := sample_host false modern_files
             (host_failing_cmds ["timedatectl"; "set-time"; "2024-06-01 10:00:00"] []) in
  let r := apply_time_settings (manual_request "2024-06-01" "10:00") w in
  r.1 = Ok (jsonify "error"
              "Failed to set manual time: Command execution failed: failed" 500)
  /\ calls r.2
     = [(["timedatectl"; "set-ntp"; "false"], (true, ""));
        (["timedatectl"; "set-time"; "2024-06-01 10:00:00"],
         (false, "Command execution failed: failed"))].
Proof. vm_compute. auto. Qed.

(** * Further properties of the service *)

(** ** The CIDR conversion *)

Lemma bit_length_nonneg n : 0 <= Ipaddress.bit_length n.
Proof.
  unfold Ipaddress.bit_length. destruct (n =? 0); [lia|].
  pose proof (Z.log2_nonneg (Z.abs n)). lia.
Qed.

Lemma count_zero_bits_range number :
  0 <= Ipaddress._count_righthand_zero_bits number 32 <= 32.
Proof.
  unfold Ipaddress._count_righthand_zero_bits. destruct (number =? 0); [lia|].
  pose proof (bit_length_nonneg (Z.land (Z.lnot number) (number - 1))). lia.
Qed.

Lemma prefix_from_ip_int_range ip_int p :
  Ipaddress._prefix_from_ip_int ip_int = Some p -> 0 <= p <= 32.
Proof.
  unfold Ipaddress._prefix_from_ip_int, Ipaddress._max_prefixlen.
  pose proof (count_zero_bits_range ip_int).
  destruct (_ =? _); [|done]. intros [= <-]. lia.
Qed.

Lemma make_netmask_range arg p :
  Ipaddress._make_netmask arg = Some p -> 0 <= p <= 32.
Proof.
  unfold Ipaddress._make_netmask.
  destruct (Ipaddress._prefix_from_prefix_string arg) as [q|] eqn:E.
  - intros [= <-]. unfold Ipaddress._prefix_from_prefix_string in E.
    destruct (negb _); [done|].
    destruct (_ && _) eqn:Eb; [|done]. injection E as <-.
    unfold Ipaddress._max_prefixlen in Eb. lia.
  - unfold Ipaddress._prefix_from_ip_string.
    destruct (Ipaddress._ip_int_from_string arg) as [n|]; [|done]. simpl.
    destruct (Ipaddress._prefix_from_ip_int n) as [q|] eqn:E1.
    + intros [= <-]. by apply (prefix_from_ip_int_range n).
    + apply prefix_from_ip_int_range.
Qed.

Lemma prefixlen_range address p :
  Ipaddress.IPv4Network_prefixlen address = inr p -> 0 <= p <= 32.
Proof.
  unfold Ipaddress.IPv4Network_prefixlen.
  destruct (Py.split "/" address) as [|addr [|mask [|? ?]]]; [done| | |done].
  - destruct (Ipaddress._ip_int_from_string addr); [|done].
    intros [= <-]. unfold Ipaddress._max_prefixlen. lia.
  - destruct (Ipaddress._ip_int_from_string addr); [|done].
    destruct (Ipaddress._make_netmask mask) as [q|] eqn:E; [|done].
    simpl. intros [= <-]. by apply (make_netmask_range mask).
Qed.

(** X1.  The mask conversion never raises, changes nothing but the log, and
    any prefix length it returns lies between 0 and 32. *)
Theorem X1_cidr_total_and_bounded (subnet_mask : string) (w : World) :
  exists o w',
    subnet_mask_to_cidr subnet_mask w = (Ok o, w')
    /\ only_logs w w'
    /\ (forall cidr, o = Some cidr -> 0 <= cidr <= 32).
Proof.
  unfold subnet_mask_to_cidr.
  destruct (Ipaddress.IPv4Network_prefixlen ("0.0.0.0/" +:+ subnet_mask))
    as [[]|p] eqn:E.
  - eexists _, _. split; [reflexivity|]. split; [by repeat split|]. done.
  - eexists _, _. split; [reflexivity|]. split; [by repeat split|]. done.
  - eexists _, _. split; [reflexivity|]. split; [by repeat split|].
    intros cidr [= <-]. by apply (prefixlen_range _ _ E).
Qed.

(** X2.  Round trip: for every prefix length from 0 to 32, the dotted
    netmask with that many leading ones converts back to it. *)
Theorem X2_netmask_round_trip (p : Z) (w : World) :
  0 <= p <= 32 ->
  (subnet_mask_to_cidr (netmask_of_prefix p) w).1 = Ok (Some p).
Proof.
  intros H. rewrite cidr_value.
  by rewrite (netmask_prefixlen p H).
Qed.

(** X3.  The conversion also takes a mask written as a bare prefix length
    (0 to 32) and, for 0 < p < 32, the host mask of the prefix; the two
    ambiguous masks are read as netmasks: 255.255.255.255 is 32 and 0.0.0.0
    is 0. *)
Theorem X3_hostmask_and_prefix_text_accepted (p : Z) (w : World) :
  0 <= p <= 32 ->
  (subnet_mask_to_cidr (pretty p) w).1 = Ok (Some p)
  /\ (0 < p < 32 -> (subnet_mask_to_cidr (hostmask_of_prefix p) w).1 = Ok (Some p))
  /\ (subnet_mask_to_cidr (hostmask_of_prefix 0) w).1 = Ok (Some 32)
  /\ (subnet_mask_to_cidr (hostmask_of_prefix 32) w).1 = Ok (Some 0).
Proof.
  intros H%prefix_cases. rewrite !cidr_value.
  repeat (destruct H as [<-|H];
          [split; [vm_compute; reflexivity|];
           split; [first [intros; vm_compute; reflexivity | lia]|];
           split; vm_compute; reflexivity|]).
  destruct H.
Qed.

(** ** The Netplan builder and writer *)

Lemma wp_makedirs path (Q : res unit -> World -> Prop) w :
  (forall msg, write_fault w path = Some msg -> Q (Raise (OSError msg)) w) ->
  (write_fault w path = None -> Q (Ok tt) w) ->
  wp (makedirs path) Q w.
Proof.
  intros H1 H2. unfold wp, makedirs.
  destruct (write_fault w path) as [msg|]; simpl; auto.
Qed.

Lemma wp_result {A} (m : M A) (P : res A -> World -> Prop) w :
  wp m P w -> exists r w', m w = (r, w') /\ P r w'.
Proof. unfold wp. destruct (m w) as [r w']. simpl. eauto. Qed.

Lemma only_logs_trans w1 w2 w3 : only_logs w1 w2 -> only_logs w2 w3 -> only_logs w1 w3.
Proof.
  intros (Ha & ? & ? & ?) (Hb & ? & ? & ?).
  split; [by eapply same_host_trans|]. repeat split; congruence.
Qed.

(** X4.  The builder returns a document exactly when the interface name is
    not empty and the mode is "dynamic", or "static" with address, mask and
    gateway present and a mask that converts; otherwise it raises ValueError;
    in both cases it changes nothing but the log. *)
Theorem X4_builder_validation
    (ip_type ip_address subnet_mask gateway dns_server : option string)
    (interface_name : string) (w : World) :
  let valid :=
    interface_name <> ""
    /\ (ip_type = Some "dynamic"
        \/ (ip_type = Some "static"
            /\ all3 ip_address subnet_mask gateway = true
            /\ exists cidr, (subnet_mask_to_cidr (Py.str subnet_mask) w).1
                            = Ok (Some cidr))) in
  exists r w',
    _generate_netplan_yaml ip_type ip_address subnet_mask gateway dns_server
      interface_name w = (r, w')
    /\ only_logs w w'
    /\ ((exists doc, r = Ok doc) <-> valid)
    /\ (forall e, r = Raise e -> exists msg, e = ValueError msg).
Proof.
  intros valid. apply wp_result. unfold _generate_netplan_yaml.
  destruct (String.eqb interface_name "") eqn:Ei.
  { apply String.eqb_eq in Ei. apply wp_raise.
    split; [apply only_logs_refl|]. split; [|intros e [= <-]; eauto].
    split; [intros (doc & [=])|]. by intros (Hne & _). }
  apply String.eqb_neq in Ei.
  destruct (Py.eqs ip_type "dynamic") eqn:Ed.
  { apply eqs_true in Ed. wp_steps.
    split; [apply only_logs_log|]. split; [|intros e [=]].
    split; [|eauto]. intros _. split; [done|]. by left. }
  assert (Hnd : ip_type <> Some "dynamic").
  { intros H. apply eqs_true in H. congruence. }
  destruct (Py.eqs ip_type "static") eqn:Es.
  - apply eqs_true in Es.
    destruct (all3 ip_address subnet_mask gateway) eqn:Ea; cbn [negb].
    + wp_step. apply (wp_cidr _ w). intros o w1 Ho L1. destruct o as [cidr|].
      * wp_steps. split; [eapply only_logs_trans; [exact L1|apply only_logs_log]|].
        split; [|intros e [=]]. split; [|eauto]. intros _. split; [done|].
        right. eauto.
      * wp_steps. split; [exact L1|]. split; [|intros e [= <-]; eauto].
        split; [intros (doc & [=])|]. intros (_ & [?|(_ & _ & cidr & Hc)]); [done|].
        congruence.
    + wp_steps. split; [apply only_logs_refl|]. split; [|intros e [= <-]; eauto].
      split; [intros (doc & [=])|]. intros (_ & [?|(_ & ? & _)]); congruence.
  - assert (Hns : ip_type <> Some "static").
    { intros H. apply eqs_true in H. congruence. }
    wp_steps. split; [apply only_logs_refl|]. split; [|intros e [= <-]; eauto].
    split; [intros (doc & [=])|]. intros (_ & [?|(? & _)]); congruence.
Qed.

(** What writing and applying a document leaves behind. *)
Lemma write_and_apply_post (netplan_data : netplan_config) (w : World) :
  exists r w' new,
    _write_and_apply_netplan netplan_data w = (Ok r, w')
    /\ calls w' = calls w ++ new
    /\ same_host w w'
    /\ (write_fault w NETPLAN_CONFIG_DIR = None ->
        write_fault w NETPLAN_CONFIG_FILE = None ->
        files w' = <[NETPLAN_CONFIG_FILE := YamlDump netplan_data]> (files w)
        /\ exists o, new = [(["netplan"; "apply"], o)]
                     /\ r = (if o.1
                             then (true, "Netplan configuration applied successfully.")
                             else (false,
                                   "Error applying network settings: Failed to apply Netplan configuration: "
                                   +:+ o.2))
                     /\ (IN_DOCKER_TEST_MODE w = true -> o.1 = true /\ procs w' = procs w)
                     /\ (IN_DOCKER_TEST_MODE w = false ->
                         procs w' = procs w ++ [["netplan"; "apply"]]))
    /\ (forall msg,
          write_fault w NETPLAN_CONFIG_DIR = Some msg
          \/ (write_fault w NETPLAN_CONFIG_DIR = None
              /\ write_fault w NETPLAN_CONFIG_FILE = Some msg) ->
          r = (false, "Error applying network settings: " +:+ msg)
          /\ new = [] /\ files w' = files w /\ procs w' = procs w).
Proof.
  apply wp_intro3 with (P := fun r w' new => calls w' = calls w ++ new
    /\ same_host w w'
    /\ (write_fault w NETPLAN_CONFIG_DIR = None ->
        write_fault w NETPLAN_CONFIG_FILE = None ->
        files w' = <[NETPLAN_CONFIG_FILE := YamlDump netplan_data]> (files w)
        /\ exists o, new = [(["netplan"; "apply"], o)]
                     /\ r = (if o.1
                             then (true, "Netplan configuration applied successfully.")
                             else (false,
                                   "Error applying network settings: Failed to apply Netplan configuration: "
                                   +:+ o.2))
                     /\ (IN_DOCKER_TEST_MODE w = true -> o.1 = true /\ procs w' = procs w)
                     /\ (IN_DOCKER_TEST_MODE w = false ->
                         procs w' = procs w ++ [["netplan"; "apply"]]))
    /\ (forall msg,
          write_fault w NETPLAN_CONFIG_DIR = Some msg
          \/ (write_fault w NETPLAN_CONFIG_DIR = None
              /\ write_fault w NETPLAN_CONFIG_FILE = Some msg) ->
          r = (false, "Error applying network settings: " +:+ msg)
          /\ new = [] /\ files w' = files w /\ procs w' = procs w)).
  unfold _write_and_apply_netplan.
  wp_steps. apply wp_makedirs; [intros msg Hm|intros Hm]; wp_steps.
  { eexists _, []. split; [reflexivity|]. cbn. rewrite app_nil_r.
    split; [done|]. split; [by repeat split|].
    split; [congruence|]. intros msg' [Hd|[Hd _]]; [|congruence].
    assert (msg' = msg) as -> by congruence. done. }
  apply wp_write_file; [intros msg Hf|intros Hf]; wp_steps.
  { eexists _, []. split; [reflexivity|]. cbn. rewrite app_nil_r.
    split; [done|]. split; [by repeat split|].
    split; [congruence|]. intros msg' [Hd|[_ Hd]]; [congruence|].
    assert (msg' = msg) as -> by congruence. done. }
  pose proof (rp_calls _ _ _ _ P) as Hc. cbn in Hc.
  pose proof (rp_host _ _ _ _ P) as Hh.
  assert (Hfs : files w0 = <[NETPLAN_CONFIG_FILE := YamlDump netplan_data]> (files w))
    by (apply (rp_files _ _ _ _ P); vm_compute; reflexivity).
  assert (Hmock : IN_DOCKER_TEST_MODE w = true -> ok = true /\ procs w0 = procs w).
  { intros Em. destruct (rp_mocked _ _ _ _ P) as (? & _ & ?); [|done].
    unfold is_mocked. cbn. rewrite Em. vm_compute. reflexivity. }
  assert (Hreal : IN_DOCKER_TEST_MODE w = false ->
                  procs w0 = procs w ++ [["netplan"; "apply"]]).
  { intros Em. apply (rp_real _ _ _ _ P); [|vm_compute; discriminate].
    unfold is_mocked. cbn. by rewrite Em. }
  assert (Hsame : same_host w w0).
  { destruct Hh as (? & ? & ? & ?). by repeat split. }
  destruct ok; cbn [negb]; wp_steps.
  all: eexists _, [_]; (split; [reflexivity|]); cbn.
  all: (split; [exact Hc|]); (split; [exact Hsame|]).
  all: split; [intros _ _; split; [exact Hfs|]; eexists; split; [reflexivity|];
               split; [cbn; vm_compute; reflexivity|]; split; assumption
              | intros msg' [Hd|[_ Hd]]; congruence].
Qed.

(** X5.  Writing and applying a document never raises.  When directory
    and file can be written, the file holds the dump of the document, the one
    command called is "netplan apply", and the result is success exactly when
    that command succeeded: after a failed apply the new file stays in place.
    When the directory cannot be created or the file cannot be written, the
    result is failure with the error text, no command is called, nothing is
    handed to a process and no file other than the Netplan file is
    touched. *)
Theorem X5_netplan_written_then_applied (netplan_data : netplan_config) (w : World) :
  exists r w' new,
    _write_and_apply_netplan netplan_data w = (Ok r, w')
    /\ calls w' = calls w ++ new
    /\ (write_fault w NETPLAN_CONFIG_DIR = None ->
        write_fault w NETPLAN_CONFIG_FILE = None ->
        files w' = <[NETPLAN_CONFIG_FILE := YamlDump netplan_data]> (files w)
        /\ exists o, new = [(["netplan"; "apply"], o)]
                     /\ r = if o.1
                            then (true, "Netplan configuration applied successfully.")
                            else (false,
                                  "Error applying network settings: Failed to apply Netplan configuration: "
                                  +:+ o.2))
    /\ (forall msg,
          write_fault w NETPLAN_CONFIG_DIR = Some msg
          \/ (write_fault w NETPLAN_CONFIG_DIR = None
              /\ write_fault w NETPLAN_CONFIG_FILE = Some msg) ->
          r = (false, "Error applying network settings: " +:+ msg)
          /\ new = [] /\ procs w' = procs w
          /\ (forall p, p <> NETPLAN_CONFIG_FILE -> files w' !! p = files w !! p)).
Proof.
  destruct (write_and_apply_post netplan_data w)
    as (r & w' & new & E & Hc & _ & Hok & Hfault).
  exists r, w', new. split; [exact E|]. split; [exact Hc|]. split.
  - intros Hd Hf. destruct (Hok Hd Hf) as (Hfiles & o & Hn & Hr & _).
    split; [exact Hfiles|]. by exists o.
  - intros msg Hmsg. destruct (Hfault msg Hmsg) as (Hr & Hn & Hfiles & Hp).
    split; [exact Hr|]. split; [exact Hn|]. split; [exact Hp|].
    intros p _. by rewrite Hfiles.
Qed.

Lemma wp_write_and_apply d (Q : res (bool * string) -> World -> Prop) w :
  (forall r w' new,
     calls w' = calls w ++ new -> same_host w w' ->
     (write_fault w NETPLAN_CONFIG_DIR = None ->
      write_fault w NETPLAN_CONFIG_FILE = None ->
      files w' = <[NETPLAN_CONFIG_FILE := YamlDump d]> (files w)
      /\ exists o, new = [(["netplan"; "apply"], o)]
                   /\ r = (if o.1
                           then (true, "Netplan configuration applied successfully.")
                           else (false,
                                 "Error applying network settings: Failed to apply Netplan configuration: "
                                 +:+ o.2))
                   /\ (IN_DOCKER_TEST_MODE w = true -> o.1 = true /\ procs w' = procs w)
                   /\ (IN_DOCKER_TEST_MODE w = false ->
                       procs w' = procs w ++ [["netplan"; "apply"]])) ->
     Q (Ok r) w') ->
  wp (_write_and_apply_netplan d) Q w.
Proof.
  intros H. destruct (write_and_apply_post d w) as (r & w' & new & E & Hc & Hs & Hok & _).
  unfold wp. rewrite E. simpl. by eapply H.
Qed.

(** X6.  A dynamic request on a modern release with a detected interface
    and writable Netplan paths: the document written enables DHCP on that
    interface and nothing else of the request enters it, "netplan apply" is
    the only command, and the answer is 200 when it succeeds and 500 with its
    diagnostic when it fails.  In mock mode the file is still written, the
    command succeeds and no process is started. *)
Theorem X6_modern_dynamic_request
    (data : gmap string string) (iface : string) (w : World) :
  data !! "ipType" = Some "dynamic" ->
  (_get_network_interface_name w).1 = Ok (Some iface) -> iface <> "" ->
  (_get_ubuntu_version w).1 <> Ok "16.04" ->
  write_fault w NETPLAN_CONFIG_DIR = None ->
  write_fault w NETPLAN_CONFIG_FILE = None ->
  let doc := mk_netplan iface {| dhcp4 := Some true; addresses := None;
                                 routes := None; nameservers := None |} in
  exists resp w' o,
    apply_network_settings data w = (Ok resp, w')
    /\ calls w' = calls w ++ [(["netplan"; "apply"], o)]
    /\ files w' = <[NETPLAN_CONFIG_FILE := YamlDump doc]> (files w)
    /\ resp = (if o.1
               then jsonify "success" "Netplan configuration applied successfully." 200
               else jsonify "error"
                      ("Error applying network settings: Failed to apply Netplan configuration: "
                       +:+ o.2) 500)
    /\ (IN_DOCKER_TEST_MODE w = true -> o.1 = true /\ procs w' = procs w).
Proof.
  intros Htype Hi Hne Hmodern Hd Hf doc.
  apply wp_intro3 with (P := fun resp w' o =>
       calls w' = calls w ++ [(["netplan"; "apply"], o)]
    /\ files w' = <[NETPLAN_CONFIG_FILE := YamlDump doc]> (files w)
    /\ resp = (if o.1
               then jsonify "success" "Netplan configuration applied successfully." 200
               else jsonify "error"
                      ("Error applying network settings: Failed to apply Netplan configuration: "
                       +:+ o.2) 500)
    /\ (IN_DOCKER_TEST_MODE w = true -> o.1 = true /\ procs w' = procs w)).
  unfold apply_network_settings.
  rewrite (data_lookup_nonempty _ _ _ Htype), Htype.
  wp_steps. eapply (wp_interface_name w); [done|]. intros o' w1 Ho L1.
  rewrite Hi in Ho. injection Ho as <-. rewrite (truthy_Some iface Hne). cbn [negb Py.str].
  wp_steps. apply (wp_ubuntu_version w); [by destruct L1 as (_ & ? & _)|].
  intros v Hv. rewrite Hv in Hmodern.
  assert (Hv16 : String.eqb v "16.04" = false).
  { apply eqb_neq_false. congruence. }
  wp_steps. unfold network_configurator. rewrite Hv16.
  unfold modern_network, _generate_netplan_yaml.
  rewrite (eqb_neq_false iface "" Hne).
  change (Py.eqs (Some "dynamic") "dynamic") with true. cbn beta iota.
  wp_steps. apply wp_write_and_apply. intros r w2 new Hc Hs Hok.
  destruct L1 as ((Hm1 & Hw1 & _) & Hf1 & Hp1 & Hc1). cbn in Hm1, Hw1, Hf1, Hp1, Hc1.
  cbn [write_fault add_log] in Hok. rewrite Hw1 in Hok.
  destruct (Hok Hd Hf) as (Hfiles & o & -> & -> & Hmock & _).
  cbn in Hc, Hfiles, Hmock. rewrite Hm1, Hp1 in Hmock. rewrite Hc1 in Hc.
  rewrite Hf1 in Hfiles.
  destruct o as [[] out]; cbn [fst snd]; wp_steps.
  all: eexists _, _; (split; [reflexivity|]); cbn [calls files add_log].
  all: repeat split; try done; by apply Hmock.
Qed.

(** ** Validation in the handlers *)

(** X8.  A request whose ipType is neither "dynamic" nor "static" (a
    missing ipType reads "None"), with a detected interface: a modern release
    answers 400 with the complaint and calls, processes and files are
    unchanged; a 16.04 release answers 500 with the wrapped complaint and its
    one command is the copy back of the backup. *)
Theorem X8_invalid_ip_type
    (data : gmap string string) (iface : string) (w : World) :
  data <> ∅ ->
  Py.eqs (data !! "ipType") "dynamic" = false ->
  Py.eqs (data !! "ipType") "static" = false ->
  (_get_network_interface_name w).1 = Ok (Some iface) -> iface <> "" ->
  let complaint := "Invalid ipType: " +:+ Py.str (data !! "ipType")
                   +:+ ". Must be 'dynamic' or 'static'." in
  exists v w',
    _get_ubuntu_version w = (Ok v, w)
    /\ if String.eqb v "16.04"
       then exists ok out,
           apply_network_settings data w
           = (Ok (jsonify "error" ("Error applying network settings: " +:+ complaint) 500),
              w')
           /\ calls w' = calls w
                         ++ [(["cp"; interfaces_backup; interfaces_file], (ok, out))]
       else apply_network_settings data w = (Ok (jsonify "error" complaint 400), w')
            /\ calls w' = calls w /\ procs w' = procs w /\ files w' = files w.
Proof.
  intros Hd Hdyn Hst Hi Hne complaint.
  destruct (ubuntu_version_post w) as (v & Ev). exists v.
  cut (wp (apply_network_settings data) (fun r w' =>
       if String.eqb v "16.04"
       then exists ok out,
           r = Ok (jsonify "error" ("Error applying network settings: " +:+ complaint) 500)
           /\ calls w' = calls w
                         ++ [(["cp"; interfaces_backup; interfaces_file], (ok, out))]
       else r = Ok (jsonify "error" complaint 400)
            /\ calls w' = calls w /\ procs w' = procs w /\ files w' = files w) w).
  { unfold wp. destruct (apply_network_settings data w) as [r w']. simpl.
    intros H. exists w'. split; [done|].
    destruct (String.eqb v "16.04").
    - destruct H as (ok & out & -> & H). by exists ok, out.
    - by destruct H as (-> & H). }
  unfold apply_network_settings. rewrite (data_nonempty data Hd).
  wp_steps. eapply (wp_interface_name w); [done|]. intros o' w1 Ho L1.
  rewrite Hi in Ho. injection Ho as <-. rewrite (truthy_Some iface Hne). cbn [negb Py.str].
  wp_steps. apply (wp_ubuntu_version w); [by destruct L1 as (_ & ? & _)|].
  intros v' Hv. rewrite Ev in Hv. injection Hv as <-.
  destruct L1 as (_ & Hf1 & Hp1 & Hc1). cbn in Hf1, Hp1, Hc1.
  wp_steps. unfold network_configurator. destruct (String.eqb v "16.04").
  - unfold _configure_legacy_network_ubuntu16. rewrite Hdyn, Hst.
    wp_steps.
    pose proof (rp_calls _ _ _ _ P) as Hc. cbn in Hc.
    exists ok, out. split; [reflexivity|].
    cbn. by rewrite Hc, Hc1.
  - unfold modern_network, _generate_netplan_yaml.
    rewrite (eqb_neq_false iface "" Hne), Hdyn, Hst.
    wp_steps. cbn. done.
Qed.

(** X9.  A time request whose type is not "ntp" and that is either not
    "manual" or a manual request without date or time: a modern release
    answers 400, a 16.04 release answers 500 with the legacy configurator's
    wording, and nothing but the log changes. *)
Theorem X9_time_validation_errors (data : gmap string string) (w : World) :
  data <> ∅ ->
  let time_type := data !! "timeType" in
  let complaint :=
    if Py.eqs time_type "manual"
    then "For manual time, manualDate and manualTime are required."
    else "Invalid timeType. Must be 'ntp' or 'manual'." in
  let legacy_complaint :=
    if Py.eqs time_type "manual"
    then "For manual time, manualDate and manualTime are required."
    else "Invalid timeType: " +:+ Py.str time_type +:+ ". Must be 'ntp' or 'manual'." in
  Py.eqs time_type "ntp" = false ->
  (Py.eqs time_type "manual" = true ->
   Py.truthy (data !! "manualDate") && Py.truthy (data !! "manualTime") = false) ->
  exists v w',
    _get_ubuntu_version w = (Ok v, w)
    /\ apply_time_settings data w
       = (Ok (if String.eqb v "16.04"
              then jsonify "error" ("Error applying time settings: " +:+ legacy_complaint) 500
              else jsonify "error" complaint 400), w')
    /\ only_logs w w'.
Proof.
  intros Hd time_type complaint legacy_complaint Hntp Hman.
  destruct (ubuntu_version_post w) as (v & Ev). exists v.
  cut (wp (apply_time_settings data) (fun r w' =>
         r = Ok (if String.eqb v "16.04"
              then jsonify "error" ("Error applying time settings: " +:+ legacy_complaint) 500
              else jsonify "error" complaint 400)
         /\ only_logs w w') w).
  { unfold wp. destruct (apply_time_settings data w) as [r w']. simpl.
    intros (-> & H). by exists w'. }
  unfold apply_time_settings. rewrite (data_nonempty data Hd).
  wp_steps. apply (wp_ubuntu_version w); [done|]. intros v' Hv.
  rewrite Ev in Hv. injection Hv as <-.
  wp_steps. unfold time_configurator.
  subst complaint legacy_complaint. fold time_type.
  destruct (String.eqb v "16.04").
  - unfold legacy_time, _configure_legacy_time_ubuntu16. fold time_type.
    rewrite Hntp. destruct (Py.eqs time_type "manual").
    + rewrite (Hman eq_refl). cbn [negb]. wp_steps. split; [done|]. by repeat split.
    + wp_steps. split; [done|]. by repeat split.
  - unfold modern_time. fold time_type.
    rewrite Hntp. destruct (Py.eqs time_type "manual").
    + rewrite (Hman eq_refl). cbn [negb]. wp_steps. split; [done|]. by repeat split.
    + wp_steps. split; [done|]. by repeat split.
Qed.

(** X10.  NTP on a modern release: synchronisation is switched off, then
    on.  A failed switch-off ends the operation with 500 and one call; a
    failed switch-on gives 500; two successes give 200.  No file changes and
    the server of the request appears in no command. *)
Theorem X10_modern_ntp_toggle (data : gmap string string) (w : World) :
  data !! "timeType" = Some "ntp" ->
  (_get_ubuntu_version w).1 <> Ok "16.04" ->
  let disable := ["timedatectl"; "set-ntp"; "false"] in
  let enable := ["timedatectl"; "set-ntp"; "true"] in
  exists resp w' new,
    apply_time_settings data w = (Ok resp, w')
    /\ calls w' = calls w ++ new
    /\ files w' = files w
    /\ ((exists e, new = [(disable, (false, e))]
                   /\ resp = jsonify "error" ("Failed to disable NTP: " +:+ e) 500)
        \/ (exists o e, new = [(disable, (true, o)); (enable, (false, e))]
                        /\ resp = jsonify "error" ("Failed to enable NTP: " +:+ e) 500)
        \/ (exists o o', new = [(disable, (true, o)); (enable, (true, o'))]
                         /\ resp = jsonify "success"
                                     "NTP synchronization enabled successfully." 200)).
Proof.
  intros Htype Hmodern disable enable.
  apply wp_intro3 with (P := fun resp w' new =>
       calls w' = calls w ++ new
    /\ files w' = files w
    /\ ((exists e, new = [(disable, (false, e))]
                   /\ resp = jsonify "error" ("Failed to disable NTP: " +:+ e) 500)
        \/ (exists o e, new = [(disable, (true, o)); (enable, (false, e))]
                        /\ resp = jsonify "error" ("Failed to enable NTP: " +:+ e) 500)
        \/ (exists o o', new = [(disable, (true, o)); (enable, (true, o'))]
                         /\ resp = jsonify "success"
                                     "NTP synchronization enabled successfully." 200))).
  unfold apply_time_settings.
  rewrite (data_lookup_nonempty _ _ _ Htype), Htype.
  wp_steps. apply (wp_ubuntu_version w); [done|]. intros v Hv.
  rewrite Hv in Hmodern.
  assert (Hv16 : String.eqb v "16.04" = false).
  { apply eqb_neq_false. congruence. }
  wp_steps. unfold time_configurator. rewrite Hv16.
  unfold modern_time.
  change (Py.eqs (Some "ntp") "ntp") with true. cbn beta iota.
  wp_go.
  all: eexists _, _; (split; [reflexivity|]).
  all: (split; [calls_chain; reflexivity|]).
  all: (split; [cbn; congruence|]).
  - right. right. by eexists _, _.
  - right. left. by eexists _, _.
  - left. by eexists.
Qed.

(** ** The legacy configurators and their files *)

(** X11.  Legacy NTP mode with a writable daemon configuration: whatever
    the commands return, the configuration file ends up holding the rendered
    configuration for the requested server, and no other file changes. *)
Theorem X11_legacy_ntp_conf_overwritten
    (ntp_server manual_date manual_time : option string) (w : World) :
  write_fault w NTP_CONF = None ->
  exists r w',
    _configure_legacy_time_ubuntu16 (Some "ntp") ntp_server manual_date manual_time w
    = (Ok r, w')
    /\ files w' = <[NTP_CONF := Text (ntp_config ntp_server)]> (files w).
Proof.
  intros Hw.
  apply wp_intro with (P := fun r w' =>
    files w' = <[NTP_CONF := Text (ntp_config ntp_server)]> (files w)).
  unfold _configure_legacy_time_ubuntu16, ntp_service.
  change (Py.eqs (Some "ntp") "ntp") with true. cbn beta iota.
  wp_go.
  all: chain_world; try congruence.
  all: eexists; (split; [reflexivity|]).
  all: cbn [files add_log set_files]; chain_field files; reflexivity.
Qed.

(** X12.  Legacy NTP mode when the daemon configuration cannot be written:
    the operation fails with the error text and touches no file other than
    the daemon configuration; the commands called are the two package steps,
    the systemctl lookup and the daemon stop, so the daemon is stopped and no
    start is attempted. *)
Theorem X12_legacy_ntp_write_failure_leaves_daemon_stopped
    (ntp_server manual_date manual_time : option string) (msg : string) (w : World) :
  write_fault w NTP_CONF = Some msg ->
  exists w' (o1 o2 o3 o4 : bool * string) stop,
    _configure_legacy_time_ubuntu16 (Some "ntp") ntp_server manual_date manual_time w
    = (Ok (false, "Error applying time settings: " +:+ msg), w')
    /\ (forall p, p <> NTP_CONF -> files w' !! p = files w !! p)
    /\ calls w' = calls w ++ [(["apt-get"; "update"], o1);
                              (["apt-get"; "install"; "-y"; "ntpsec"], o2);
                              (["which"; "systemctl"], o3); (stop, o4)]
    /\ stop = (if o3.1 then ["systemctl"; "stop"; "ntp"] else ["service"; "ntp"; "stop"]).
Proof.
  intros Hw.
  cut (wp (_configure_legacy_time_ubuntu16 (Some "ntp") ntp_server manual_date manual_time)
         (fun r w' => exists (o1 o2 o3 o4 : bool * string) stop,
            r = Ok (false, "Error applying time settings: " +:+ msg)
    /\ (forall p, p <> NTP_CONF -> files w' !! p = files w !! p)
    /\ calls w' = calls w ++ [(["apt-get"; "update"], o1);
                              (["apt-get"; "install"; "-y"; "ntpsec"], o2);
                              (["which"; "systemctl"], o3); (stop, o4)]
    /\ stop = (if o3.1 then ["systemctl"; "stop"; "ntp"] else ["service"; "ntp"; "stop"])) w).
  { unfold wp. destruct (_configure_legacy_time_ubuntu16 _ _ _ _ w) as [r w']. simpl.
    intros (o1 & o2 & o3 & o4 & stop & -> & H). by exists w', o1, o2, o3, o4, stop. }
  unfold _configure_legacy_time_ubuntu16, ntp_service.
  change (Py.eqs (Some "ntp") "ntp") with true. cbn beta iota.
  wp_go.
  all: chain_world; try congruence.
  all: eexists _, _, (_, _), _, _; (split; [cbn; congruence|]).
  all: (split; [intros p _; cbn [files add_log set_files]; chain_field files;
                reflexivity|]).
  all: (split; [calls_chain; reflexivity|]); reflexivity.
Qed.

Ltac legacy_files_solve x Hx Hb :=
  chain_world;
  pose proof interfaces_file_ne_backup;
  repeat match goal with
         | Hok : forall y, files _ !! interfaces_file = Some y -> _ -> ?ok = true |- _ =>
             pose proof (Hok x Hx Hb); subst ok; clear Hok
         end;
  cbn beta iota in *;
  repeat match goal with
         | H : exists y, _ |- _ => destruct H as (? & ? & ? & ?)
         end;
  simplify_eq;
  chain_field files;
  repeat match goal with
         | Hok : forall y, _ !! interfaces_backup = Some y -> _ -> ?ok = true,
           Hw : write_fault _ interfaces_file = None |- _ =>
             let E := fresh in
             assert (E : ok = true)
               by (apply (Hok x); [by simplify_map_eq|exact Hw]);
             subst ok; clear Hok
         | H : if ?ok then _ else _ |- _ => destruct ok
         | H : exists y, _ |- _ => destruct H as (? & ? & ? & ?)
         end;
  try congruence;
  chain_field files;
  eexists; (split; [reflexivity|]); cbn [fst files add_log set_files];
  repeat match goal with
         | H : files ?w = _ |- _ => rewrite H
         end;
  repeat split; intros; by simplify_map_eq.

(** X13.  Legacy network apply of a valid request when the interface file
    exists and the backup path can be written: at the end the backup holds
    the original content, the interface file holds the rendered configuration
    if the operation reports success and the original content if it reports
    failure, and no other file has changed. *)
Theorem X13_legacy_backup_holds_original
    (ip_type ip_address subnet_mask gateway dns_server : option string)
    (interface_name : string) (x : content) (w : World) :
  Py.eqs ip_type "dynamic" = true
  \/ (Py.eqs ip_type "static" = true
      /\ all3 ip_address subnet_mask gateway = true) ->
  files w !! interfaces_file = Some x ->
  write_fault w interfaces_backup = None ->
  let config :=
    if Py.eqs ip_type "dynamic" then legacy_dynamic_config interface_name
    else legacy_static_config interface_name (Py.str ip_address)
           (Py.str subnet_mask) (Py.str gateway)
           (if Py.truthy dns_server
            then "    dns-nameservers " +:+ Py.str dns_server
            else "    dns-nameservers 8.8.8.8") in
  exists r w',
    _configure_legacy_network_ubuntu16 ip_type ip_address subnet_mask gateway
      dns_server interface_name w = (Ok r, w')
    /\ files w' !! interfaces_backup = Some x
    /\ files w' !! interfaces_file = Some (if r.1 then Text config else x)
    /\ (forall p, p <> interfaces_file -> p <> interfaces_backup ->
                  files w' !! p = files w !! p).
Proof.
  intros Hvalid Hx Hb config.
  apply wp_intro with (P := fun (r : bool * string) w' =>
       files w' !! interfaces_backup = Some x
    /\ files w' !! interfaces_file = Some (if r.1 then Text config else x)
    /\ (forall p, p <> interfaces_file -> p <> interfaces_backup ->
                  files w' !! p = files w !! p)).
  unfold _configure_legacy_network_ubuntu16. subst config.
  destruct (Py.eqs ip_type "dynamic") eqn:Ed.
  - wp_go.
    all: legacy_files_solve x Hx Hb.
  - destruct Hvalid as [?|(Es & Ea)]; [done|]. rewrite Es, Ea. cbn [negb].
    wp_go.
    all: legacy_files_solve x Hx Hb.
Qed.

(** ** Discovery, teardown and the executor *)

Lemma scanned_In i entries :
  In i (scanned_interfaces entries) <-> In (i, true) entries.
Proof.
  unfold scanned_interfaces. rewrite in_map_iff. split.
  - intros ([n d] & <- & Hin). apply list_elem_of_In, list_elem_of_filter in Hin.
    destruct Hin as (Hd & Hin). simpl in *. subst. by apply list_elem_of_In.
  - intros Hin. exists (i, true). split; [done|].
    apply list_elem_of_In, list_elem_of_filter. split; [done|]. by apply list_elem_of_In.
Qed.

(** X14.  A name returned by interface discovery is the name of a scanned
    entry that is a directory; discovery returns nothing exactly when the
    scan fails or no scanned entry is a directory. *)
Theorem X14_discovered_name_is_a_scanned_directory (w : World) :
  (forall i, (_get_network_interface_name w).1 = Ok (Some i) ->
     exists entries, sys_class_net w = Some entries /\ In (i, true) entries)
  /\ ((_get_network_interface_name w).1 = Ok None <->
      sys_class_net w = None
      \/ exists entries, sys_class_net w = Some entries
                         /\ forall n, ~ In (n, true) entries).
Proof.
  rewrite interface_name_value.
  destruct (sys_class_net w) as [entries|]; [|split; [done|]; split; eauto].
  destruct (find is_wired (scanned_interfaces entries)) as [i0|] eqn:Ef.
  - split.
    + intros i [= <-]. exists entries. split; [done|].
      apply scanned_In. by apply find_some in Ef as [? _].
    + split; [done|]. intros [?|(es & [= <-] & Hno)]; [done|].
      apply find_some in Ef as [Hin _]. apply scanned_In in Hin. by apply Hno in Hin.
  - destruct (scanned_interfaces entries) as [|i0 l] eqn:Es; simpl.
    + split; [done|]. split; [|done]. intros _. right. exists entries.
      split; [done|]. intros n Hn. apply scanned_In in Hn. by rewrite Es in Hn.
    + split.
      * intros i [= <-]. exists entries. split; [done|].
        apply scanned_In. rewrite Es. by left.
      * split; [done|]. intros [?|(es & [= <-] & Hno)]; [done|].
        exfalso. apply (Hno i0). apply scanned_In. rewrite Es. by left.
Qed.

(** X15.  The DHCP teardown never raises and changes no file; in mock mode
    it starts no process. *)
Theorem X15_teardown_writes_no_file (w : World) :
  exists resp w',
    disable_dhcp w = (Ok resp, w')
    /\ files w' = files w
    /\ (IN_DOCKER_TEST_MODE w = true -> procs w' = procs w).
Proof.
  apply wp_intro with (P := fun (resp : Response) w' =>
    files w' = files w /\ (IN_DOCKER_TEST_MODE w = true -> procs w' = procs w)).
  unfold disable_dhcp.
  wp_steps. destruct (interface_name_post (add_log INFO "Received request to disable DHCP." w))
    as (o & w1 & Ei & L1).
  unfold wp at 1. rewrite Ei. cbn [fst snd].
  destruct L1 as ((Hm1 & _) & Hf1 & Hp1 & _). cbn in Hm1, Hf1, Hp1.
  destruct (Py.truthy o); cbn [negb]; [|wp_steps; eexists; split; [reflexivity|]; by cbn].
  repeat (wp_steps;
          match goal with
          | P : run_post ?c ?wa _ ?wb |- _ =>
              let Hf := fresh "Hf" in
              assert (Hf : files wb = files wa)
                by (apply (rp_files _ _ _ _ P); vm_compute; reflexivity);
              let Hp := fresh "Hp" in
              assert (Hp : IN_DOCKER_TEST_MODE wa = true -> procs wb = procs wa)
                by (intros Em; apply (rp_mocked _ _ _ _ P);
                    unfold is_mocked; cbn; rewrite Em; vm_compute; reflexivity);
              let Hm := fresh "Hm" in
              pose proof (proj1 (rp_host _ _ _ _ P)) as Hm;
              clear P
          end).
  repeat match goal with
         | L : only_logs _ _ |- _ =>
             let Ha := fresh in let Hb := fresh in let Hc := fresh in
             destruct L as ((Ha & _) & Hb & Hc & _)
         end.
  eexists. split; [reflexivity|]. cbn [files procs add_log]. split; [congruence|].
  intros Em.
  repeat match goal with
         | Hp : IN_DOCKER_TEST_MODE ?x = true -> _ |- _ =>
             specialize (Hp ltac:(congruence))
         end.
  congruence.
Qed.

(** X16.  A command given with the privilege prefix is recorded as given
    and run without it, the prefix being removed once: in real mode the
    process started is the rest of the command, and in mock mode a rest whose
    name is on the allow-list is mocked. *)
Theorem X16_privilege_prefix_is_dropped_once (rest : list string) (w : World) :
  exists r w',
    run_command ("sudo" :: rest) w = (Ok r, w')
    /\ calls w' = calls w ++ [("sudo" :: rest, r)]
    /\ (IN_DOCKER_TEST_MODE w = false -> rest <> [] -> procs w' = procs w ++ [rest])
    /\ (forall name args,
          IN_DOCKER_TEST_MODE w = true -> rest = name :: args ->
          In name mocked_commands -> r.1 = true /\ procs w' = procs w).
Proof.
  destruct (run_command_post ("sudo" :: rest) w) as (r & w' & E & P).
  exists r, w'. split; [exact E|]. split; [apply (rp_calls _ _ _ _ P)|].
  assert (Hs : strip_sudo ("sudo" :: rest) = rest) by reflexivity.
  split.
  - intros Em Hne. pose proof (rp_real _ _ _ _ P) as Hr. rewrite Hs in Hr.
    apply Hr; [|done]. unfold is_mocked. by rewrite Em.
  - intros name args Em -> Hin. pose proof (rp_mocked _ _ _ _ P) as Hm.
    rewrite Hs in Hm. destruct Hm as (? & _ & ?); [|done].
    unfold is_mocked. rewrite Em. cbn.
    by rewrite (proj2 (list_contains_In _ _) Hin).
Qed.


(** X17.  Real execution of a command other than cp.  The command is
    handed to subprocess.run once.  The call reports success exactly when
    the process completes, and for ASCII output the text returned is the
    stripped standard output; a missing executable and any other exception
    give their own failure messages; a non-zero exit gives failure, for ASCII
    output with one of the three diagnostic messages. *)
Theorem X17_real_execution_outcome (name : string) (args : list string) (w : World) :
  name <> "sudo" -> IN_DOCKER_TEST_MODE w = false -> is_cp (name :: args) = false ->
  exists r w',
    run_command (name :: args) w = (Ok r, w')
    /\ procs w' = procs w ++ [name :: args]
    /\ match host w (procs w) (name :: args) with
       | Completed stdout =>
           r.1 = true /\ (Py.isascii stdout = true -> r.2 = Py.strip stdout)
       | FileNotFoundError =>
           r = (false, "Command '" +:+ name +:+ "' not found. Is it installed and in PATH?")
       | OtherException e => r = (false, "An unexpected error occurred: " +:+ e)
       | CalledProcessError _ stdout stderr =>
           let diagnostic := Py.strip (if String.eqb stderr "" then stdout else stderr) in
           r.1 = false
           /\ (Py.isascii stdout = true -> Py.isascii stderr = true ->
               r.2 = "Command '" +:+ name +:+ "' not found. Ensure it is installed and in PATH."
               \/ r.2 = "Cannot execute '" +:+ name +:+ "': This command requires systemd as init system (PID 1) and D-Bus, which are typically not available in a standard Docker container. This service is intended for a full Ubuntu OS."
               \/ r.2 = "Command execution failed: " +:+ diagnostic)
       end.
Proof.
  intros Hs Em Hcp. apply eqb_neq_false in Hs.
  unfold run_command, run_command_body.
  unfold mbind, M_bind, mret, M_ret, logger, modify, gets, when. cbn.
  rewrite Hs. cbn. rewrite Em. cbn.
  unfold subprocess_run.
  assert (Hrun :
    match args with
    | [src; dst] =>
        if String.eqb name "cp" then cp src dst (add_proc (name :: args)
             (add_log INFO "Executing command: {' '.join(command_list)}" w))
        else (host w (procs w) (name :: args), add_proc (name :: args)
             (add_log INFO "Executing command: {' '.join(command_list)}" w))
    | _ => (host w (procs w) (name :: args), add_proc (name :: args)
             (add_log INFO "Executing command: {' '.join(command_list)}" w))
    end
    = (host w (procs w) (name :: args), add_proc (name :: args)
             (add_log INFO "Executing command: {' '.join(command_list)}" w))).
  { destruct args as [|a1 [|a2 [|a3 l]]]; try reflexivity.
    unfold is_cp in Hcp. by rewrite Hcp. }
  cbn in Hrun. rewrite Hrun. clear Hrun.
  destruct (host w (procs w) (name :: args)) as [stdout|rc stdout stderr| |e]; cbn.
  - destruct (negb (String.eqb (Py.strip stdout) "")); cbn;
      eexists _, _; (split; [reflexivity|]); by cbn.
  - destruct (String.eqb stderr ""); cbn [negb];
      repeat match goal with
             | |- context [if ?b then _ else _] => destruct b; cbn
             end;
      eexists _, _; (split; [reflexivity|]); cbn; (split; [done|]);
      (split; [done|]); intros _ _; auto.
  - eexists _, _. split; [reflexivity|]. by cbn.
  - eexists _, _. split; [reflexivity|]. by cbn.
Qed.

(** ** The handlers as a whole *)

Lemma wp_of_run {A} (m : M A) (Q : res A -> World -> Prop) w r w' :
  m w = (r, w') -> Q r w' -> wp m Q w.
Proof. unfold wp. by intros ->. Qed.

(** Symbolic execution through detection, conversion and the writer as
    well, each read at the world it runs in. *)
Ltac wp_all :=
  repeat first
    [ progress wp_go
    | lazymatch goal with
      | |- wp _get_network_interface_name _ ?w =>
          let o := fresh "o" in let w' := fresh "w" in
          let E := fresh "E" in let L := fresh "L" in
          destruct (interface_name_post w) as (o & w' & E & L);
          apply (wp_of_run _ _ _ _ _ E); clear E; cbn beta iota
      | |- wp _get_ubuntu_version _ ?w =>
          let v := fresh "v" in let E := fresh "E" in
          destruct (ubuntu_version_post w) as (v & E);
          apply (wp_of_run _ _ _ _ _ E); clear E; cbn beta iota
      | |- wp (subnet_mask_to_cidr ?m) _ ?w =>
          let o := fresh "o" in let w' := fresh "w" in
          let E := fresh "E" in let L := fresh "L" in
          destruct (cidr_post m w) as (o & w' & E & L);
          apply (wp_of_run _ _ _ _ _ E); clear E; cbn beta iota
      | |- wp (makedirs _) _ _ =>
          apply wp_makedirs; [intros ? ?|intros ?]; cbn beta iota
      | |- wp (network_configurator ?v _ _ _ _ _ _) _ _ =>
          unfold network_configurator; destruct (String.eqb v "16.04");
          [unfold _configure_legacy_network_ubuntu16
          |unfold modern_network, _generate_netplan_yaml, _write_and_apply_netplan]
      | |- wp (time_configurator ?v _ _ _ _) _ _ =>
          unfold time_configurator; destruct (String.eqb v "16.04");
          [unfold legacy_time, _configure_legacy_time_ubuntu16, ntp_service
          |unfold modern_time]
      end ].

(** X18.  On a parsed request body the three handlers never raise, and
    every response is either status "success" with code 200 or status
    "error" with code 400 or 500. *)
Theorem X18_handlers_always_answer (data : gmap string string) (w : World) :
  let well_formed (resp : Response) :=
    (status resp = "success" /\ code resp = 200)
    \/ (status resp = "error" /\ (code resp = 400 \/ code resp = 500)) in
  (exists resp w', apply_network_settings data w = (Ok resp, w') /\ well_formed resp)
  /\ (exists resp w', apply_time_settings data w = (Ok resp, w') /\ well_formed resp)
  /\ (exists resp w', disable_dhcp w = (Ok resp, w') /\ well_formed resp).
Proof.
  intros well_formed. split; [|split].
  - apply wp_intro with (P := fun resp _ => well_formed resp).
    unfold apply_network_settings. wp_all.
    all: eexists; (split; [reflexivity|]); unfold well_formed; cbn; auto.
  - apply wp_intro with (P := fun resp _ => well_formed resp).
    unfold apply_time_settings. wp_all.
    all: eexists; (split; [reflexivity|]); unfold well_formed; cbn; auto.
  - apply wp_intro with (P := fun resp _ => well_formed resp).
    unfold disable_dhcp. wp_all.
    all: eexists; (split; [reflexivity|]); unfold well_formed; cbn; auto.
Qed.

Ltac logs_only_solve :=
  repeat match goal with
         | L : only_logs _ _ |- _ =>
             let Hb := fresh in let Hc := fresh in let Hd := fresh in
             destruct L as (_ & Hb & Hc & Hd); cbn in Hb, Hc, Hd
         end;
  cbn [files procs calls add_log]; repeat split; congruence.

(** X19.  When a network or time request is answered with 400, no command
    was called, no process started and no file changed. *)
Theorem X19_client_fault_has_no_effect (data : gmap string string) (w : World) :
  (exists resp w',
     apply_network_settings data w = (Ok resp, w')
     /\ (code resp = 400 ->
         calls w' = calls w /\ procs w' = procs w /\ files w' = files w))
  /\ (exists resp w',
        apply_time_settings data w = (Ok resp, w')
        /\ (code resp = 400 ->
            calls w' = calls w /\ procs w' = procs w /\ files w' = files w)).
Proof.
  split.
  - apply wp_intro with (P := fun resp w' => code resp = 400 ->
         calls w' = calls w /\ procs w' = procs w /\ files w' = files w).
    unfold apply_network_settings. wp_all.
    all: eexists; (split; [reflexivity|]); cbn [code jsonify]; intros Hcode.
    all: first [discriminate Hcode | logs_only_solve].
  - apply wp_intro with (P := fun resp w' => code resp = 400 ->
         calls w' = calls w /\ procs w' = procs w /\ files w' = files w).
    unfold apply_time_settings. wp_all.
    all: eexists; (split; [reflexivity|]); cbn [code jsonify]; intros Hcode.
    all: first [discriminate Hcode | logs_only_solve].
Qed.

(** What a finished call adds to the list of started processes. *)
Ltac procs_of P :=
  lazymatch type of P with
  | run_post ?c ?wa _ ?wb =>
      let Hm := fresh "Hhost" in
      pose proof (rp_host _ _ _ _ P) as Hm;
      first
        [ let Hp := fresh "Hprocs" in
          assert (Hp : procs wb = procs wa ++ [c])
            by (apply (rp_real _ _ _ _ P);
                [unfold is_mocked; destruct (IN_DOCKER_TEST_MODE wa);
                 vm_compute; reflexivity
                |vm_compute; discriminate]);
          cbn in Hp
        | let Hp := fresh "Hprocs" in
          assert (Hp : IN_DOCKER_TEST_MODE wa = true -> procs wb = procs wa)
            by (let E := fresh "E" in
                intros E; apply (rp_mocked _ _ _ _ P);
                unfold is_mocked; cbn in E |- *; rewrite E; vm_compute; reflexivity);
          cbn in Hp ];
      clear P
  end.

Ltac wp_procs :=
  repeat first
    [ lazymatch goal with
      | |- wp (run_command _) _ _ =>
          let r := fresh "ok" in let o := fresh "out" in
          let w := fresh "w" in let P := fresh "P" in
          apply wp_run_command; intros [r o] w P; procs_of P; cbn beta iota
      end
    | wp_step
    | progress cbn [negb andb orb]
    | lazymatch goal with
      | |- wp (write_file _ _) _ _ =>
          apply wp_write_file; [intros ? ?|intros ?]; cbn beta iota
      | |- wp (if ?b then _ else _) _ _ =>
          lazymatch b with
          | negb ?x => first [is_var x; destruct x | destruct x eqn:?]
          | _ => first [is_var b; destruct b | destruct b eqn:?]
          end; cbn [negb]; cbn beta iota
      end ].

Ltac procs_solve Em :=
  chain_world; rewrite ?Em in *; try congruence;
  repeat match goal with
         | H : true = true -> _ |- _ => specialize (H eq_refl)
         end;
  eexists _, _; (split; [reflexivity|]); cbn [procs add_log set_files];
  repeat match goal with
         | H : procs ?x = _ |- context [procs ?x] => rewrite H
         end;
  rewrite <- ?app_assoc; cbn [app]; reflexivity.

(** X7.  Mock mode does not cover the legacy network apply: for a valid
    request and a writable interface file, the backup copy and the restart of
    the network service are started as real processes. *)
Theorem X7_mock_mode_does_not_cover_the_legacy_apply
    (ip_type ip_address subnet_mask gateway dns_server : option string)
    (interface_name : string) (w : World) :
  IN_DOCKER_TEST_MODE w = true ->
  Py.eqs ip_type "dynamic" = true
  \/ (Py.eqs ip_type "dynamic" = false /\ Py.eqs ip_type "static" = true
      /\ all3 ip_address subnet_mask gateway = true) ->
  write_fault w interfaces_file = None ->
  exists r w' rest,
    _configure_legacy_network_ubuntu16 ip_type ip_address subnet_mask gateway
      dns_server interface_name w = (Ok r, w')
    /\ procs w' = procs w ++ [["cp"; interfaces_file; interfaces_backup];
                              ["service"; "networking"; "restart"]] ++ rest.
Proof.
  intros Em Hvalid Hw.
  apply wp_intro3 with (P := fun (r : bool * string) w' rest =>
    procs w' = procs w ++ [["cp"; interfaces_file; interfaces_backup];
                           ["service"; "networking"; "restart"]] ++ rest).
  unfold _configure_legacy_network_ubuntu16.
  destruct Hvalid as [Ed|(Ed & Es & Ea)].
  - rewrite Ed. wp_procs.
    all: procs_solve Em.
  - rewrite Ed, Es, Ea. cbn [negb]. wp_procs.
    all: procs_solve Em.
Qed.

(** * The further properties on concrete hosts *)

(** The usual /24 mask converts, to a length within the bounds. *)
Lemma X1_witness :
  exists o w',
    subnet_mask_to_cidr "255.255.255.0" (sample_host false modern_files host_ok)
    = (Ok o, w')
    /\ only_logs (sample_host false modern_files host_ok) w'
    /\ (forall cidr, o = Some cidr -> 0 <= cidr <= 32).
Proof.
  exact (X1_cidr_total_and_bounded "255.255.255.0"
           (sample_host false modern_files host_ok)).
Defined.

(** The netmask of length 24 is 255.255.255.0 and converts back to 24. *)
Lemma X2_witness :
  netmask_of_prefix 24 = "255.255.255.0"
  /\ (subnet_mask_to_cidr (netmask_of_prefix 24)
        (sample_host false modern_files host_ok)).1 = Ok (Some 24).
Proof.
  split; [vm_compute; reflexivity |].
  apply (X2_netmask_round_trip 24 (sample_host false modern_files host_ok)); lia.
Defined.

(** The text "24" and the host mask 0.0.0.255 both convert to 24. *)
Lemma X3_witness :
  hostmask_of_prefix 24 = "0.0.0.255"
  /\ (subnet_mask_to_cidr (pretty 24) (sample_host false modern_files host_ok)).1
     = Ok (Some 24)
  /\ (subnet_mask_to_cidr (hostmask_of_prefix 24)
        (sample_host false modern_files host_ok)).1 = Ok (Some 24).
Proof.
  split; [vm_compute; reflexivity |].
  destruct (X3_hostmask_and_prefix_text_accepted 24
              (sample_host false modern_files host_ok)) as (H1 & H2 & _); [lia |].
  split; [exact H1 | apply H2; lia].
Defined.

(** A static request without a gateway is refused with ValueError. *)
Lemma X4_witness :
  exists msg w',
    _generate_netplan_yaml (Some "static") (Some "192.168.1.50")
      (Some "255.255.255.0") None None "eth0"
      (sample_host false modern_files host_ok) = (Raise (ValueError msg), w').
Proof.
  destruct (X4_builder_validation (Some "static") (Some "192.168.1.50")
              (Some "255.255.255.0") None None "eth0"
              (sample_host false modern_files host_ok))
    as (r & w' & E & _ & Hv & He).
  destruct r as [doc | e].
  - exfalso. destruct Hv as [Hv _].
    destruct (Hv (ex_intro _ doc eq_refl)) as (_ & [Hd | (_ & Ha & _)]);
      [discriminate Hd | vm_compute in Ha; discriminate Ha].
  - destruct (He e eq_refl) as (msg & ->). exists msg, w'. exact E.
Defined.

(** On a host where every process fails, the document is written although
    the apply command fails; on a host whose Netplan file cannot be written
    the result is the failure with the error text and no command is
    called. *)
Lemma X5_witness :
  let doc := mk_netplan "eth0" {| dhcp4 := Some true; addresses := None;
                                  routes := None; nameservers := None |} in
  exists r w' new,
    _write_and_apply_netplan doc (sample_host false modern_files host_failing)
    = (Ok r, w')
    /\ calls w' = calls (sample_host false modern_files host_failing) ++ new
    /\ files w' = <[NETPLAN_CONFIG_FILE := YamlDump doc]>
                    (files (sample_host false modern_files host_failing))
    /\ exists r2 w2,
         _write_and_apply_netplan doc
           (set_write_fault NETPLAN_CONFIG_FILE "[Errno 13] Permission denied"
              (sample_host false modern_files host_ok)) = (Ok r2, w2)
         /\ r2 = (false, "Error applying network settings: "
                         +:+ "[Errno 13] Permission denied")
         /\ calls w2 = [].
Proof.
  intros doc.
  destruct (X5_netplan_written_then_applied doc
              (sample_host false modern_files host_failing))
    as (r & w' & new & E & Hc & Hok & _).
  exists r, w', new. split; [exact E |]. split; [exact Hc |].
  split; [apply Hok; reflexivity |].
  destruct (X5_netplan_written_then_applied doc
              (set_write_fault NETPLAN_CONFIG_FILE "[Errno 13] Permission denied"
                 (sample_host false modern_files host_ok)))
    as (r2 & w2 & new2 & E2 & Hc2 & _ & Hfault).
  destruct (Hfault "[Errno 13] Permission denied") as (Hr & Hn & _);
    [right; split; vm_compute; reflexivity |].
  exists r2, w2. split; [exact E2 |]. split; [exact Hr |].
  rewrite Hc2, Hn. reflexivity.
Defined.

(** A dynamic request on a modern host in mock mode. *)
Lemma X6_witness :
  let w := sample_host true modern_files host_ok in
  let doc := mk_netplan "eth0" {| dhcp4 := Some true; addresses := None;
                                  routes := None; nameservers := None |} in
  exists resp w' o,
    apply_network_settings {[ "ipType" := "dynamic" ]} w = (Ok resp, w')
    /\ calls w' = calls w ++ [(["netplan"; "apply"], o)]
    /\ files w' = <[NETPLAN_CONFIG_FILE := YamlDump doc]> (files w)
    /\ resp = (if o.1
               then jsonify "success" "Netplan configuration applied successfully." 200
               else jsonify "error"
                      ("Error applying network settings: Failed to apply Netplan configuration: "
                       +:+ o.2) 500)
    /\ (IN_DOCKER_TEST_MODE w = true -> o.1 = true /\ procs w' = procs w).
Proof.
  intros w doc.
  apply (X6_modern_dynamic_request {[ "ipType" := "dynamic" ]} "eth0" w);
    [vm_compute; reflexivity | vm_compute; reflexivity | discriminate
    | vm_compute; discriminate | reflexivity | reflexivity].
Defined.

(** A dynamic request on a 16.04 host in mock mode starts the copy and the
    restart. *)
Lemma X7_witness :
  let w := sample_host true legacy_files host_ok in
  exists r w' rest,
    _configure_legacy_network_ubuntu16 (Some "dynamic") None None None None "eth0" w
    = (Ok r, w')
    /\ procs w' = procs w ++ [["cp"; interfaces_file; interfaces_backup];
                              ["service"; "networking"; "restart"]] ++ rest.
Proof.
  intros w.
  apply (X7_mock_mode_does_not_cover_the_legacy_apply
           (Some "dynamic") None None None None "eth0" w);
    [reflexivity | left; vm_compute; reflexivity | reflexivity].
Defined.

(** The ipType "bridge" on a modern host. *)
Lemma X8_witness :
  let w := sample_host false modern_files host_ok in
  exists w',
    apply_network_settings {[ "ipType" := "bridge" ]} w
    = (Ok (jsonify "error" "Invalid ipType: bridge. Must be 'dynamic' or 'static'." 400),
       w')
    /\ calls w' = calls w /\ procs w' = procs w /\ files w' = files w.
Proof.
  intros w.
  destruct (X8_invalid_ip_type {[ "ipType" := "bridge" ]} "eth0" w)
    as (v & w' & Ev & H);
    [ intros H; apply (f_equal (fun m : gmap string string => m !! "ipType")) in H;
      vm_compute in H; discriminate H
    | vm_compute; reflexivity | vm_compute; reflexivity | vm_compute; reflexivity
    | discriminate | ].
  assert (v = "modern") as -> by (vm_compute in Ev; congruence).
  exists w'. exact H.
Defined.

(** The timeType "cron" on a modern host. *)
Lemma X9_witness :
  let w := sample_host false modern_files host_ok in
  exists w',
    apply_time_settings {[ "timeType" := "cron" ]} w
    = (Ok (jsonify "error" "Invalid timeType. Must be 'ntp' or 'manual'." 400), w')
    /\ only_logs w w'.
Proof.
  intros w.
  destruct (X9_time_validation_errors {[ "timeType" := "cron" ]} w)
    as (v & w' & Ev & E & Hl);
    [ intros H; apply (f_equal (fun m : gmap string string => m !! "timeType")) in H;
      vm_compute in H; discriminate H
    | vm_compute; reflexivity
    | intros H; vm_compute in H; discriminate H | ].
  assert (v = "modern") as -> by (vm_compute in Ev; congruence).
  exists w'. split; [exact E | exact Hl].
Defined.

(** NTP on a modern host where every process fails: one call, answer 500. *)
Lemma X10_witness :
  let w := sample_host false modern_files host_failing in
  exists resp w' new,
    apply_time_settings {[ "timeType" := "ntp" ]} w = (Ok resp, w')
    /\ calls w' = calls w ++ new
    /\ files w' = files w
    /\ ((exists e, new = [(["timedatectl"; "set-ntp"; "false"], (false, e))]
                   /\ resp = jsonify "error" ("Failed to disable NTP: " +:+ e) 500)
        \/ (exists o e, new = [(["timedatectl"; "set-ntp"; "false"], (true, o));
                               (["timedatectl"; "set-ntp"; "true"], (false, e))]
                        /\ resp = jsonify "error" ("Failed to enable NTP: " +:+ e) 500)
        \/ (exists o o', new = [(["timedatectl"; "set-ntp"; "false"], (true, o));
                                (["timedatectl"; "set-ntp"; "true"], (true, o'))]
                         /\ resp = jsonify "success"
                                     "NTP synchronization enabled successfully." 200)).
Proof.
  intros w.
  apply (X10_modern_ntp_toggle {[ "timeType" := "ntp" ]} w);
    [vm_compute; reflexivity | vm_compute; discriminate].
Defined.

(** Legacy NTP mode on a host where every process fails: the configuration
    file is overwritten all the same. *)
Lemma X11_witness :
  let w := sample_host false legacy_files host_failing in
  exists r w',
    _configure_legacy_time_ubuntu16 (Some "ntp") (Some "time.example.org") None None w
    = (Ok r, w')
    /\ files w' = <[NTP_CONF := Text (ntp_config (Some "time.example.org"))]> (files w).
Proof.
  intros w.
  apply (X11_legacy_ntp_conf_overwritten (Some "time.example.org") None None w).
  reflexivity.
Defined.

(** Legacy NTP mode on a host with a read-only daemon configuration. *)
Lemma X12_witness :
  let w := set_write_fault NTP_CONF "[Errno 30] Read-only file system"
             (sample_host false legacy_files host_ok) in
  exists w' (o1 o2 o3 o4 : bool * string) stop,
    _configure_legacy_time_ubuntu16 (Some "ntp") None None None w
    = (Ok (false, "Error applying time settings: "
                  +:+ "[Errno 30] Read-only file system"), w')
    /\ (forall p, p <> NTP_CONF -> files w' !! p = files w !! p)
    /\ calls w' = calls w ++ [(["apt-get"; "update"], o1);
                              (["apt-get"; "install"; "-y"; "ntpsec"], o2);
                              (["which"; "systemctl"], o3); (stop, o4)]
    /\ stop = (if o3.1 then ["systemctl"; "stop"; "ntp"] else ["service"; "ntp"; "stop"]).
Proof.
  intros w.
  apply (X12_legacy_ntp_write_failure_leaves_daemon_stopped None None None
           "[Errno 30] Read-only file system" w).
  vm_compute. reflexivity.
Defined.

(** A static request on a 16.04 host where the restart and the interface-up
    command fail: backup and interface file both hold the original text. *)
Lemma X13_witness :
  let w := sample_host false legacy_files
             (host_failing_cmds ["service"; "networking"; "restart"] ["ifup"; "eth0"]) in
  exists r w',
    _configure_legacy_network_ubuntu16 (Some "static") (Some "192.168.1.50")
      (Some "255.255.255.0") (Some "192.168.1.1") None "eth0" w = (Ok r, w')
    /\ files w' !! interfaces_backup = Some (Text "original")
    /\ (r.1 = false -> files w' !! interfaces_file = Some (Text "original")).
Proof.
  intros w.
  destruct (X13_legacy_backup_holds_original (Some "static") (Some "192.168.1.50")
              (Some "255.255.255.0") (Some "192.168.1.1") None "eth0"
              (Text "original") w)
    as (r & w' & E & Hb & Hf & _);
    [right; split; vm_compute; reflexivity | vm_compute; reflexivity | reflexivity |].
  exists r, w'. split; [exact E |]. split; [exact Hb |].
  intros Hr. rewrite Hr in Hf. exact Hf.
Defined.

(** On the sample host the name discovered is that of a scanned directory. *)
Lemma X14_witness :
  exists entries,
    sys_class_net (sample_host false modern_files host_ok) = Some entries
    /\ In ("eth0", true) entries.
Proof.
  destruct (X14_discovered_name_is_a_scanned_directory
              (sample_host false modern_files host_ok)) as [H _].
  apply (H "eth0"). vm_compute. reflexivity.
Defined.

(** The teardown in mock mode: no file written, no process started. *)
Lemma X15_witness :
  let w := sample_host true modern_files host_failing in
  exists resp w',
    disable_dhcp w = (Ok resp, w') /\ files w' = files w /\ procs w' = procs w.
Proof.
  intros w.
  destruct (X15_teardown_writes_no_file w) as (resp & w' & E & Hf & Hp).
  exists resp, w'. split; [exact E |]. split; [exact Hf | apply Hp; reflexivity].
Defined.

(** "sudo netplan apply": run as "netplan apply" in real mode, mocked in
    mock mode. *)
Lemma X16_witness :
  (exists r w',
     run_command ["sudo"; "netplan"; "apply"] (sample_host false modern_files host_ok)
     = (Ok r, w')
     /\ procs w' = [["netplan"; "apply"]])
  /\ (exists r w',
        run_command ["sudo"; "netplan"; "apply"] (sample_host true modern_files host_ok)
        = (Ok r, w')
        /\ r.1 = true /\ procs w' = []).
Proof.
  split.
  - destruct (X16_privilege_prefix_is_dropped_once ["netplan"; "apply"]
                (sample_host false modern_files host_ok))
      as (r & w' & E & _ & Hreal & _).
    exists r, w'. split; [exact E |]. apply Hreal; [reflexivity | discriminate].
  - destruct (X16_privilege_prefix_is_dropped_once ["netplan"; "apply"]
                (sample_host true modern_files host_ok))
      as (r & w' & E & _ & _ & Hmock).
    exists r, w'. split; [exact E |].
    apply (Hmock "netplan" ["apply"]);
      [reflexivity | reflexivity | vm_compute; tauto].
Defined.

(** A failing daemon start in real mode: one process, result failure. *)
Lemma X17_witness :
  let w := sample_host false legacy_files host_failing in
  exists r w',
    run_command ["service"; "ntp"; "start"] w = (Ok r, w')
    /\ procs w' = procs w ++ [["service"; "ntp"; "start"]]
    /\ r.1 = false.
Proof.
  intros w.
  destruct (X17_real_execution_outcome "service" ["ntp"; "start"] w)
    as (r & w' & E & Hp & Hr);
    [discriminate | reflexivity | vm_compute; reflexivity |].
  exists r, w'. split; [exact E |]. split; [exact Hp |].
  exact (proj1 Hr).
Defined.

(** The three handlers on a modern host where every process fails. *)
Lemma X18_witness :
  let w := sample_host false modern_files host_failing in
  let well_formed (resp : Response) :=
    (status resp = "success" /\ code resp = 200)
    \/ (status resp = "error" /\ (code resp = 400 \/ code resp = 500)) in
  (exists resp w', apply_network_settings static_request w = (Ok resp, w')
                   /\ well_formed resp)
  /\ (exists resp w', apply_time_settings static_request w = (Ok resp, w')
                      /\ well_formed resp)
  /\ (exists resp w', disable_dhcp w = (Ok resp, w') /\ well_formed resp).
Proof.
  exact (X18_handlers_always_answer static_request
           (sample_host false modern_files host_failing)).
Defined.

(** A static request without a gateway on a modern host is answered with
    400 and leaves calls, processes and files as they were. *)
Lemma X19_witness :
  let w := sample_host false modern_files host_ok in
  let data : gmap string string :=
    {[ "ipType" := "static"; "ipAddress" := "192.168.1.50";
       "subnetMask" := "255.255.255.0" ]} in
  exists resp w',
    apply_network_settings data w = (Ok resp, w')
    /\ code resp = 400
    /\ calls w' = calls w /\ procs w' = procs w /\ files w' = files w.
Proof.
  intros w data.
  destruct (X19_client_fault_has_no_effect data w) as [(resp & w' & E & H) _].
  assert (code resp = 400) as Hc
    by (assert (E' := f_equal fst E); vm_compute in E'; injection E' as <-; reflexivity).
  exists resp, w'. split; [exact E |]. split; [exact Hc | exact (H Hc)].
Defined.
